(** * ST7789U_RPI: the ST7789 panel driver, embedded and verified

    The development follows [ST7789U_RPI/ST7789Display.py]:

    - [Py]      the Python built-ins the driver relies on ([range], slicing,
                [len], exceptions);
    - [Hw]      the platform collaborators ([RPi.GPIO], [spidev], [time.sleep])
                as a trace of events, with the small monad that threads the
                trace and the exceptions through the driver;
    - [numpy]   the array operations used by the pixel encoder;
    - the encoder [image_to_data] and the class [ST7789Display];
    - the properties of the encoder, of the chunked transfer, of the window
      protocol, of construction and of the optional pins.

    Python integers are unbounded, so they are [Z]; [>>], [&] and [|] on them
    are [Z.shiftr], [Z.land] and [Z.lor] (two's complement on negative
    numbers in both worlds).  [uint16] array elements are [Z] values with the
    wrap-around written out. *)

From Stdlib Require Import String.
From Stdlib Require Import ZArith List Lia Bool.
Import ListNotations.

#[local] Open Scope Z_scope.
#[local] Set Implicit Arguments.

(** ** Python built-ins *)

Module Py.

(** Exceptions carry their format string and the arguments given to
    [str.format]. *)
Inductive exception : Type :=
| ValueError (fmt : string) (args : list Z)
| IndexError (fmt : string) (args : list Z).

Definition len {A : Type} (l : list A) : Z := Z.of_nat (length l).

(** [for i in range(start, stop, step)]: the values [start], [start+step],
    ... are produced while they stay before [stop].  [fuel] bounds the
    number of iterations; [range] supplies [|stop - start|], which the loop
    never exhausts since [|step| >= 1] (lemma [range_loop_fuel]). *)
Fixpoint range_loop (fuel : nat) (i stop step : Z) : list Z :=
  match fuel with
  | O => []
  | S fuel' =>
      if (if 0 <? step then i <? stop else stop <? i)
      then i :: range_loop fuel' (i + step) stop step
      else []
  end.

Definition range (start stop step : Z) : exception + list Z :=
  if step =? 0
  then inl (ValueError "range() arg 3 must not be zero" [])
  else inr (range_loop (Z.to_nat (Z.abs (stop - start))) start stop step).

(** Slice bounds are clamped to the sequence as [PySlice_AdjustIndices]
    does for step 1: negative bounds count from the end. *)
Definition adjust_index (n i : Z) : Z :=
  if i <? 0 then Z.max 0 (i + n) else Z.min i n.

(** [l[lo:hi]] *)
Definition slice {A : Type} (l : list A) (lo hi : Z) : list A :=
  let lo' := adjust_index (len l) lo in
  let hi' := adjust_index (len l) hi in
  firstn (Z.to_nat (hi' - lo')) (skipn (Z.to_nat lo') l).

End Py.

(** ** The platform: GPIO lines, the SPI device and the clock *)

Module Hw.

(** What the driver asks of the platform, in program order.  Durations of
    [time.sleep] are in milliseconds ([time.sleep(0.500)] is [time_sleep 500]). *)
Inductive event : Type :=
| GPIO_setwarnings (flag : bool)
| GPIO_setmode_BCM
| GPIO_setup_OUT (pin : Z)
| GPIO_output (pin : Z) (level : bool)
| SpiDev_open (port : Z) (cs : option Z)
| SpiDev_mode (mode : Z)
| SpiDev_lsbfirst (flag : bool)
| SpiDev_max_speed_hz (hz : Z)
| SpiDev_xfer (data : list Z)
| time_sleep (ms : Z).

(** A computation emits events and then returns a value or raises. *)
Definition IO (A : Type) : Type := (list event * (Py.exception + A))%type.

Definition ret {A : Type} (a : A) : IO A := ([], inr a).

Definition raise {A : Type} (e : Py.exception) : IO A := ([], inl e).

Definition emit (e : event) : IO unit := ([e], inr tt).

Definition bind {A B : Type} (m : IO A) (k : A -> IO B) : IO B :=
  match m with
  | (t, inl e) => (t, inl e)
  | (t, inr a) => let (t', r) := k a in (t ++ t', r)
  end.

Definition lift {A : Type} (r : Py.exception + A) : IO A := ([], r).

(** [for x in xs: body(x)] *)
Fixpoint for_each {A : Type} (xs : list A) (body : A -> IO unit) : IO unit :=
  match xs with
  | [] => ret tt
  | x :: xs' => bind (body x) (fun _ => for_each xs' body)
  end.

Definition trace {A : Type} (m : IO A) : list event := fst m.
Definition outcome {A : Type} (m : IO A) : Py.exception + A := snd m.

(** The payloads of the SPI transfers of a trace, in order. *)
Fixpoint xfers (t : list event) : list (list Z) :=
  match t with
  | [] => []
  | SpiDev_xfer d :: t' => d :: xfers t'
  | _ :: t' => xfers t'
  end.

End Hw.

Declare Scope io_scope.
Delimit Scope io_scope with io.
Notation "x <- m ;; k" := (Hw.bind m (fun x => k))
  (at level 61, m at next level, right associativity) : io_scope.
Notation "m ;; k" := (Hw.bind m (fun _ => k))
  (at level 61, right associativity) : io_scope.
#[local] Open Scope io_scope.

Import Py Hw.

(** ** The driver object *)

(** The attributes [__init__] stores on [self._spi]. *)
Record SpiDev : Type := {
  spi_port : Z;
  spi_cs : option Z;
  mode : Z;
  lsbfirst : bool;
  max_speed_hz : Z
}.

Record ST7789Display : Type := {
  _spi : SpiDev;
  _dc : Z;
  _rst : option Z;
  _width : Z;
  _height : Z;
  _rotation : Z;
  _invert : bool;
  _offset_left : Z;
  _offset_top : Z;
  _backlight : option Z
}.

(** [send] takes either a number or a sequence of byte values. *)
Inductive payload : Type :=
| Number (n : Z)
| Bytes (l : list Z).

Definition send (self : ST7789Display) (data : payload) (is_data : bool)
    (chunk_size : Z) : IO unit :=
  emit (GPIO_output (_dc self) is_data) ;;
  let data := match data with
              | Number n => [Z.land n 0xFF]
              | Bytes l => l
              end in
  starts <- lift (range 0 (len data) chunk_size) ;;
  for_each starts (fun start =>
    let end_ := Z.min (start + chunk_size) (len data) in
    emit (SpiDev_xfer (slice data start end_))).

Definition set_backlight (self : ST7789Display) (value : bool) : IO unit :=
  match _backlight self with
  | Some pin => emit (GPIO_output pin value)
  | None => ret tt
  end.

Definition width (self : ST7789Display) : Z :=
  if (_rotation self =? 0) || (_rotation self =? 180)
  then _width self else _height self.

Definition height (self : ST7789Display) : Z :=
  if (_rotation self =? 0) || (_rotation self =? 180)
  then _height self else _width self.

Definition command (self : ST7789Display) (data : payload) : IO unit :=
  send self data false 4096.

Definition data (self : ST7789Display) (data : payload) : IO unit :=
  send self data true 4096.

Definition reset (self : ST7789Display) : IO unit :=
  match _rst self with
  | Some rst =>
      emit (GPIO_output rst true) ;;
      emit (time_sleep 500) ;;
      emit (GPIO_output rst false) ;;
      emit (time_sleep 500) ;;
      emit (GPIO_output rst true) ;;
      emit (time_sleep 500)
  | None => ret tt
  end.

(** ** The opcode table *)

(** Modelled from the spec: the module [ST7789] imported by the driver (the
    class holding the panel's opcodes) is not among the sources.  The spec
    only says that it holds the fixed numeric opcodes of the vendor's register
    map, so the table is a parameter of the driver: one integer per attribute
    the driver reads. *)
Record ST7789_opcodes : Type := {
  SWRESET : Z;
  SLPOUT : Z;
  INVOFF : Z;
  INVON : Z;
  DISPON : Z;
  CASET : Z;
  RASET : Z;
  RAMWR : Z;
  MADCTL : Z;
  COLMOD : Z;
  FRMCTR2 : Z;
  GCTRL : Z;
  VCOMS : Z;
  LCMCTRL : Z;
  VDVVRHEN : Z;
  VRHS : Z;
  VDVS : Z;
  FRCTRL2 : Z;
  GMCTRP1 : Z;
  GMCTRN1 : Z
}.

(** The values of the ST7789 data sheet for these opcodes, used where a
    concrete table is needed. *)
Definition ST7789_datasheet : ST7789_opcodes := {|
  SWRESET := 0x01; SLPOUT := 0x11; INVOFF := 0x20; INVON := 0x21;
  DISPON := 0x29; CASET := 0x2A; RASET := 0x2B; RAMWR := 0x2C;
  MADCTL := 0x36; COLMOD := 0x3A; FRMCTR2 := 0xB2; GCTRL := 0xB7;
  VCOMS := 0xBB; LCMCTRL := 0xC0; VDVVRHEN := 0xC2; VRHS := 0xC3;
  VDVS := 0xC4; FRCTRL2 := 0xC6; GMCTRP1 := 0xE0; GMCTRN1 := 0xE1
|}.

(** ** numpy arrays *)

Module numpy.

(** A three-dimensional array (rows, columns, channels) seen through its
    shape and its indexing function, which is how [flip], [transpose] and
    slicing build their results: as views that re-index the same items.
    Items outside the shape are never read. *)
Record ndarray : Type := {
  dim0 : nat;
  dim1 : nat;
  dim2 : nat;
  item : nat -> nat -> nat -> Z
}.

(** [numpy.array(rows)] for a nested list of RGB triples. *)
Definition array (rows : list (list (Z * Z * Z))) : ndarray := {|
  dim0 := length rows;
  dim1 := match rows with [] => 0%nat | r :: _ => length r end;
  dim2 := 3;
  item := fun i j c =>
    match nth j (nth i rows []) (0, 0, 0) with
    | (r, g, b) => match c with O => r | S O => g | _ => b end
    end
|}.

(** [numpy.flip(m, axis)] for the two axes [rot90] uses. *)
Definition flip (m : ndarray) (axis : nat) : ndarray :=
  match axis with
  | O => {| dim0 := dim0 m; dim1 := dim1 m; dim2 := dim2 m;
            item := fun i j c => item m (dim0 m - 1 - i)%nat j c |}
  | _ => {| dim0 := dim0 m; dim1 := dim1 m; dim2 := dim2 m;
            item := fun i j c => item m i (dim1 m - 1 - j)%nat c |}
  end.

(** [numpy.transpose(m, [1, 0, 2])] *)
Definition transpose (m : ndarray) : ndarray :=
  {| dim0 := dim1 m; dim1 := dim0 m; dim2 := dim2 m;
     item := fun i j c => item m j i c |}.

(** [numpy.rot90(m, k)] with the default [axes=(0, 1)], case by case as the
    library writes it. *)
Definition rot90 (m : ndarray) (k : Z) : ndarray :=
  let k := k mod 4 in
  if k =? 0 then m
  else if k =? 2 then flip (flip m 0) 1
  else if k =? 1 then transpose (flip m 1)
  else flip (transpose m) 1.

Definition map_items (f : Z -> Z) (m : ndarray) : ndarray :=
  {| dim0 := dim0 m; dim1 := dim1 m; dim2 := dim2 m;
     item := fun i j c => f (item m i j c) |}.

(** [m.astype('uint16')]: integer items are reduced modulo [2^16]. *)
Definition astype_uint16 (m : ndarray) : ndarray :=
  map_items (fun v => v mod 65536) m.

(** [m[..., [c]]]: the channel [c] alone, as an array with one channel. *)
Definition take_channel (m : ndarray) (c : nat) : Py.exception + ndarray :=
  if (c <? dim2 m)%nat
  then inr {| dim0 := dim0 m; dim1 := dim1 m; dim2 := 1;
              item := fun i j _ => item m i j c |}
  else inl (Py.IndexError "index {} is out of bounds for axis {} with size {}"
              [Z.of_nat c; 2; Z.of_nat (dim2 m)]).

(** [m & mask], [m << n], [m >> n] on a [uint16] array and a Python integer:
    the result stays [uint16], so bits shifted past bit 15 are lost. *)
Definition bitwise_and (m : ndarray) (mask : Z) : ndarray :=
  map_items (fun v => Z.land v mask) m.

Definition left_shift (m : ndarray) (n : Z) : ndarray :=
  map_items (fun v => (Z.shiftl v n) mod 65536) m.

Definition right_shift (m : ndarray) (n : Z) : ndarray :=
  map_items (fun v => Z.shiftr v n) m.

(** [a | b] for two arrays of the same shape. *)
Definition bitwise_or (a b : ndarray) : ndarray :=
  {| dim0 := dim0 a; dim1 := dim1 a; dim2 := dim2 a;
     item := fun i j c => Z.lor (item a i j c) (item b i j c) |}.

(** [m.byteswap()] on [uint16] items: the two bytes of each item change
    places. *)
Definition byteswap (m : ndarray) : ndarray :=
  map_items (fun v => Z.lor (Z.shiftl (Z.land v 0xFF) 8) (Z.shiftr v 8)) m.

(** The two bytes of a [uint16] item in memory.  The host is little-endian
    (the ARM cores of the Raspberry Pi, the only platform of [RPi.GPIO]):
    low byte first. *)
Definition item_bytes (v : Z) : list Z := [Z.land v 0xFF; Z.shiftr v 8].

(** [m.tobytes()]: the items in C order (row by row, column by column,
    channel by channel), each as its bytes in memory. *)
Definition tobytes (m : ndarray) : list Z :=
  flat_map (fun i =>
    flat_map (fun j =>
      flat_map (fun c => item_bytes (item m i j c)) (seq 0 (dim2 m)))
    (seq 0 (dim1 m)))
  (seq 0 (dim0 m)).

End numpy.

Import numpy.

(** ** The pixel encoder *)

(** The array [result] of [image_to_data]: one RGB565 value per pixel of the
    rotated image, before the bytes are swapped.  The image is an [ndarray]
    already (a PIL image is first turned into an RGB one by
    [numpy.array(image.convert('RGB'))]). *)
Definition image_to_rgb565 (image : ndarray) (rotation : Z)
    : Py.exception + ndarray :=
  let pb := astype_uint16 (rot90 image (rotation / 90)) in
  match take_channel pb 0, take_channel pb 1, take_channel pb 2 with
  | inr c0, inr c1, inr c2 =>
      let red := left_shift (bitwise_and c0 0xf8) 8 in
      let green := left_shift (bitwise_and c1 0xfc) 3 in
      let blue := right_shift (bitwise_and c2 0xf8) 3 in
      let result := bitwise_or (bitwise_or red green) blue in
      inr result
  | inl e, _, _ => inl e
  | _, inl e, _ => inl e
  | _, _, inl e => inl e
  end.

Definition image_to_data (image : ndarray) (rotation : Z)
    : Py.exception + list Z :=
  match image_to_rgb565 image rotation with
  | inr result => inr (tobytes (byteswap result))
  | inl e => inl e
  end.

(** ** The panel controller *)

Section Driver.

Variable ST7789 : ST7789_opcodes.

Definition _init (self : ST7789Display) : IO unit :=
  command self (Number (SWRESET ST7789)) ;;
  emit (time_sleep 150) ;;
  command self (Number (MADCTL ST7789)) ;;
  data self (Number 0x70) ;;
  command self (Number (FRMCTR2 ST7789)) ;;
  data self (Number 0x0C) ;;
  data self (Number 0x0C) ;;
  data self (Number 0x00) ;;
  data self (Number 0x33) ;;
  data self (Number 0x33) ;;
  command self (Number (COLMOD ST7789)) ;;
  data self (Number 0x05) ;;
  command self (Number (GCTRL ST7789)) ;;
  data self (Number 0x14) ;;
  command self (Number (VCOMS ST7789)) ;;
  data self (Number 0x37) ;;
  command self (Number (LCMCTRL ST7789)) ;;
  data self (Number 0x2C) ;;
  command self (Number (VDVVRHEN ST7789)) ;;
  data self (Number 0x01) ;;
  command self (Number (VRHS ST7789)) ;;
  data self (Number 0x12) ;;
  command self (Number (VDVS ST7789)) ;;
  data self (Number 0x20) ;;
  command self (Number 0xD0) ;;
  data self (Number 0xA4) ;;
  data self (Number 0xA1) ;;
  command self (Number (FRCTRL2 ST7789)) ;;
  data self (Number 0x0F) ;;
  command self (Number (GMCTRP1 ST7789)) ;;
  data self (Number 0xD0) ;;
  data self (Number 0x04) ;;
  data self (Number 0x0D) ;;
  data self (Number 0x11) ;;
  data self (Number 0x13) ;;
  data self (Number 0x2B) ;;
  data self (Number 0x3F) ;;
  data self (Number 0x54) ;;
  data self (Number 0x4C) ;;
  data self (Number 0x18) ;;
  data self (Number 0x0D) ;;
  data self (Number 0x0B) ;;
  data self (Number 0x1F) ;;
  data self (Number 0x23) ;;
  command self (Number (GMCTRN1 ST7789)) ;;
  data self (Number 0xD0) ;;
  data self (Number 0x04) ;;
  data self (Number 0x0C) ;;
  data self (Number 0x11) ;;
  data self (Number 0x13) ;;
  data self (Number 0x2C) ;;
  data self (Number 0x3F) ;;
  data self (Number 0x44) ;;
  data self (Number 0x51) ;;
  data self (Number 0x2F) ;;
  data self (Number 0x1F) ;;
  data self (Number 0x1F) ;;
  data self (Number 0x20) ;;
  data self (Number 0x23) ;;
  (if _invert self
   then command self (Number (INVON ST7789))
   else command self (Number (INVOFF ST7789))) ;;
  command self (Number (SLPOUT ST7789)) ;;
  command self (Number (DISPON ST7789)) ;;
  emit (time_sleep 100).

Definition __init__ (port dc spi_mode : Z) (cs backlight rst : option Z)
    (width height rotation : Z) (invert : bool)
    (spi_speed_hz offset_left offset_top : Z) : IO ST7789Display :=
  (if negb (existsb (Z.eqb rotation) [0; 90; 180; 270])
   then raise (ValueError "Invalid rotation {}" [rotation])
   else ret tt) ;;
  (if negb (width =? height) && existsb (Z.eqb rotation) [90; 270]
   then raise (ValueError "Invalid rotation {} for {}x{} resolution"
                 [rotation; width; height])
   else ret tt) ;;
  emit (GPIO_setwarnings false) ;;
  emit GPIO_setmode_BCM ;;
  emit (SpiDev_open port cs) ;;
  emit (SpiDev_mode spi_mode) ;;
  emit (SpiDev_lsbfirst false) ;;
  emit (SpiDev_max_speed_hz spi_speed_hz) ;;
  let self := {|
    _spi := {| spi_port := port; spi_cs := cs; mode := spi_mode;
               lsbfirst := false; max_speed_hz := spi_speed_hz |};
    _dc := dc; _rst := rst; _width := width; _height := height;
    _rotation := rotation; _invert := invert;
    _offset_left := offset_left; _offset_top := offset_top;
    _backlight := backlight |} in
  emit (GPIO_setup_OUT dc) ;;
  match backlight with
  | Some pin =>
      emit (GPIO_setup_OUT pin) ;;
      emit (GPIO_output pin false) ;;
      emit (time_sleep 100) ;;
      emit (GPIO_output pin true)
  | None => ret tt
  end ;;
  match rst with
  | Some pin => emit (GPIO_setup_OUT pin) ;; reset self
  | None => ret tt
  end ;;
  _init self ;;
  ret self.

Definition set_window (self : ST7789Display) (x0 y0 : Z) (x1 y1 : option Z)
    : IO unit :=
  let x1 := match x1 with None => _width self - 1 | Some x1 => x1 end in
  let y1 := match y1 with None => _height self - 1 | Some y1 => y1 end in
  let y0 := y0 + _offset_top self in
  let y1 := y1 + _offset_top self in
  let x0 := x0 + _offset_left self in
  let x1 := x1 + _offset_left self in
  command self (Number (CASET ST7789)) ;;
  data self (Number (Z.shiftr x0 8)) ;;
  data self (Number (Z.land x0 0xFF)) ;;
  data self (Number (Z.shiftr x1 8)) ;;
  data self (Number (Z.land x1 0xFF)) ;;
  command self (Number (RASET ST7789)) ;;
  data self (Number (Z.shiftr y0 8)) ;;
  data self (Number (Z.land y0 0xFF)) ;;
  data self (Number (Z.shiftr y1 8)) ;;
  data self (Number (Z.land y1 0xFF)) ;;
  command self (Number (RAMWR ST7789)).

Definition display (self : ST7789Display) (image : ndarray) : IO unit :=
  set_window self 0 0 None None ;;
  pixel_bytes <- lift (image_to_data image (_rotation self)) ;;
  starts <- lift (range 0 (len pixel_bytes) 4096) ;;
  for_each starts (fun i =>
    data self (Bytes (slice pixel_bytes i (i + 4096)))).

End Driver.

(** A controller with the constructor's default geometry (a square 240x240
    panel at rotation 90), data/command on pin 9, backlight on pin 19 and no
    reset line, used where a concrete object is needed. *)
Definition example_display : ST7789Display := {|
  _spi := {| spi_port := 0; spi_cs := Some 0; mode := 0; lsbfirst := false;
             max_speed_hz := 4000000 |};
  _dc := 9; _rst := None; _width := 240; _height := 240; _rotation := 90;
  _invert := true; _offset_left := 0; _offset_top := 0;
  _backlight := Some 19
|}.

(** A test picture two pixels wide and one tall: red on the left, green on
    the right. *)
Definition example_image : ndarray := array [[(0xF8, 0, 0); (0, 0xFC, 0)]].

(** ** Vocabulary of the properties *)

(** [ceil_div n c] is the number written ceil(n/c) in the properties, for
    [c > 0] (lemma [ceil_div_spec]: the least [q] with [n <= q * c]). *)
Definition ceil_div (n c : Z) : Z := (n + c - 1) / c.

(** The big-endian pair of a 16-bit quantity: the bytes of [v mod 2^16], most
    significant first. *)
Definition be16 (v : Z) : list Z := [(v mod 65536) / 256; (v mod 65536) mod 256].

(** The driver's events for one payload sent whole: the select line, then the
    transfer. *)
Definition sent (self : ST7789Display) (is_data : bool) (bytes : list Z)
    : list event :=
  [GPIO_output (_dc self) is_data; SpiDev_xfer bytes].

(** The events of a 16-bit quantity sent as data: its big-endian pair, each
    byte in a data transfer of its own. *)
Definition sent_be16 (self : ST7789Display) (v : Z) : list event :=
  flat_map (fun b => sent self true [b]) (be16 v).

(** The value of an optional argument. *)
Definition or_default (arg : option Z) (default : Z) : Z :=
  match arg with Some v => v | None => default end.

(** The configuration check of the constructor, as the properties word it. *)
Definition valid_rotation (rotation : Z) : Prop := In rotation [0; 90; 180; 270].

Definition quarter_turned (rotation : Z) : Prop := In rotation [90; 270].

(** The item [image_to_data] computes from the three channels of a pixel: the
    casts, masks and shifts of the [uint16] arrays [red], [green] and [blue],
    item by item (lemma [image_to_rgb565_inv] reads it off the arrays). *)
Definition packed (r g b : Z) : Z :=
  Z.lor (Z.lor ((Z.shiftl (Z.land (r mod 65536) 0xf8) 8) mod 65536)
               ((Z.shiftl (Z.land (g mod 65536) 0xfc) 3) mod 65536))
        (Z.shiftr (Z.land (b mod 65536) 0xf8) 3).

(** The RGB565 value the properties give for 8-bit channels. *)
Definition rgb565 (R G B : Z) : Z :=
  Z.lor (Z.lor (Z.shiftl (Z.land R 0xF8) 8) (Z.shiftl (Z.land G 0xFC) 3))
        (Z.shiftr (Z.land B 0xF8) 3).

(** The pixels of a one-channel [uint16] array in row-major scan order, each
    most significant byte first. *)
Definition big_endian_rows (result : ndarray) : list Z :=
  flat_map (fun i =>
    flat_map (fun j => [item result i j 0 / 256; item result i j 0 mod 256])
      (seq 0 (dim1 result)))
  (seq 0 (dim0 result)).

(** The constructor's configuration error: Python's [ValueError], raised
    before the platform is touched. *)
Definition configuration_error (A : Type) (m : IO A) : Prop :=
  exists fmt args, m = ([], inl (ValueError fmt args)).

(** A quarter turn counter-clockwise of a picture [W] wide and [H] tall, as
    geometry has it: the result is [H] wide and [W] tall, its top row is the
    right-hand column of the source read downwards, and so on leftwards; the
    pixel at row [i], column [j] of the result is the pixel at row [j], column
    [W - 1 - i] of the source. *)
Definition rotate_ccw (m : ndarray) : ndarray :=
  {| dim0 := dim1 m; dim1 := dim0 m; dim2 := dim2 m;
     item := fun i j c => item m j (dim1 m - 1 - i)%nat c |}.

(** Two arrays are the same array when they have the same shape and the same
    items inside it. *)
Definition same_array (a b : ndarray) : Prop :=
  dim0 a = dim0 b /\ dim1 a = dim1 b /\ dim2 a = dim2 b /\
  forall i j c, (i < dim0 a)%nat -> (j < dim1 a)%nat -> (c < dim2 a)%nat ->
    item a i j c = item b i j c.

(** ** Vocabulary of the further properties *)

(** The delays of a trace, in milliseconds and in order. *)
Fixpoint sleeps (t : list event) : list Z :=
  match t with
  | [] => []
  | time_sleep ms :: t' => ms :: sleeps t'
  | _ :: t' => sleeps t'
  end.

(** A transfer of exactly one byte value. *)
Definition one_byte (payload : list Z) : Prop :=
  exists b, payload = [b] /\ 0 <= b < 256.

(** The usual unpacking of an RGB565 value into 8-bit channels (low bits
    zero). *)
Definition unpack565 (v : Z) : Z * Z * Z :=
  (Z.land (Z.shiftr v 8) 0xF8, Z.land (Z.shiftr v 3) 0xFC,
   Z.land (Z.shiftl v 3) 0xF8).

(** The stream of a list of 16-bit values, each high byte first. *)
Definition big_endian_pairs (values : list Z) : list Z :=
  flat_map (fun v => [v / 256; v mod 256]) values.

(** Two images that agree on their shape and on their first three channels
    (they may differ in further channels, such as alpha). *)
Definition same_rgb (a b : ndarray) : Prop :=
  dim0 a = dim0 b /\ dim1 a = dim1 b /\
  (3 <= dim2 a)%nat /\ (3 <= dim2 b)%nat /\
  forall i j c, (i < dim0 a)%nat -> (j < dim1 a)%nat -> (c < 3)%nat ->
    item a i j c = item b i j c.

(** A grey picture of one pixel: an array with a single channel. *)
Definition example_grey : ndarray :=
  {| dim0 := 1; dim1 := 1; dim2 := 1; item := fun _ _ _ => 0x80 |}.

(** The test picture with an alpha channel added. *)
Definition example_image_rgba : ndarray :=
  {| dim0 := 1; dim1 := 2; dim2 := 4;
     item := fun i j c =>
       match c with
       | 3%nat => 0xFF
       | _ => item example_image i j c
       end |}.

(** A second controller on the same data/command pin: an upright 240x320
    panel with window offsets and a reset line. *)
Definition example_display_upright : ST7789Display := {|
  _spi := {| spi_port := 0; spi_cs := Some 1; mode := 3; lsbfirst := false;
             max_speed_hz := 8000000 |};
  _dc := 9; _rst := Some 5; _width := 240; _height := 320; _rotation := 0;
  _invert := true; _offset_left := 40; _offset_top := 53;
  _backlight := None
|}.

(** The values of a one-channel array in row-major scan order. *)
Definition pixels (result : ndarray) : list Z :=
  flat_map (fun i => map (fun j => item result i j 0) (seq 0 (dim1 result)))
    (seq 0 (dim0 result)).

(** An image whose channels hold integers outside 0..255, as a wider integer
    array may: one pixel (0x1F8, -4, 0x2FF). *)
Definition example_wide_pixel : ndarray :=
  {| dim0 := 1; dim1 := 1; dim2 := 3;
     item := fun _ _ c =>
       match c with O => 0x1F8 | S O => -4 | _ => 0x2FF end |}.

(** * Properties *)

(** ** Python built-ins *)

Lemma ceil_div_spec (n c : Z) :
  0 < c -> (ceil_div n c - 1) * c < n <= ceil_div n c * c.
Proof.
  intros Hc. unfold ceil_div.
  pose proof (Z.div_mod (n + c - 1) c ltac:(lia)) as E.
  pose proof (Z.mod_pos_bound (n + c - 1) c Hc) as B.
  nia.
Qed.

Lemma ceil_div_step (n c : Z) :
  0 < c -> ceil_div n c = 1 + ceil_div (n - c) c.
Proof.
  intros Hc. unfold ceil_div.
  replace (n + c - 1) with ((n - c + c - 1) + 1 * c) by lia.
  rewrite Z.div_add by lia. lia.
Qed.

Lemma ceil_div_small (n c : Z) : 0 < c -> n <= 0 -> ceil_div n c <= 0.
Proof.
  intros Hc Hn. pose proof (ceil_div_spec n Hc). nia.
Qed.

Lemma ceil_div_pos (n c : Z) : 0 < c -> 0 < n -> 0 < ceil_div n c.
Proof.
  intros Hc Hn. pose proof (ceil_div_spec n Hc). nia.
Qed.

(** The fuel [range] hands to its loop is never the reason the loop stops. *)
Lemma range_loop_fuel (stop step : Z) :
  0 < step ->
  forall (f1 f2 : nat) (i : Z),
    (Z.to_nat (stop - i) <= f1)%nat -> (Z.to_nat (stop - i) <= f2)%nat ->
    range_loop f1 i stop step = range_loop f2 i stop step.
Proof.
  intros Hs. induction f1 as [|f1 IH]; intros f2 i H1 H2.
  - destruct f2 as [|f2]; [reflexivity|]. simpl.
    destruct (0 <? step) eqn:E; [|lia].
    destruct (i <? stop) eqn:E'; [lia | reflexivity].
  - destruct f2 as [|f2]; simpl.
    + destruct (0 <? step) eqn:E; [|lia].
      destruct (i <? stop) eqn:E'; [lia | reflexivity].
    + destruct (0 <? step) eqn:E; [|lia].
      destruct (i <? stop) eqn:E'; [|reflexivity].
      f_equal. apply IH; lia.
Qed.

(** An upward loop only produces values from its start on. *)
Lemma range_loop_from (stop step : Z) :
  0 < step ->
  forall (fuel : nat) (i s : Z), In s (range_loop fuel i stop step) -> i <= s.
Proof.
  intros Hs. induction fuel as [|fuel IH]; intros i s Hin; simpl in Hin; [easy|].
  destruct (0 <? step) eqn:E; [|lia].
  destruct (i <? stop); [|easy].
  destruct Hin as [<- | Hin]; [lia|].
  specialize (IH _ _ Hin). lia.
Qed.

Lemma len_nonneg (A : Type) (l : list A) : 0 <= len l.
Proof. unfold len. lia. Qed.

Lemma len_cons (A : Type) (x : A) (l : list A) : len (x :: l) = 1 + len l.
Proof. unfold len. simpl length. lia. Qed.

Lemma len_app (A : Type) (l l' : list A) : len (l ++ l') = len l + len l'.
Proof. unfold len. rewrite length_app. lia. Qed.

(** A slice between two bounds that do not count from the end. *)
Lemma slice_inside (A : Type) (l : list A) (lo hi : Z) :
  0 <= lo -> 0 <= hi ->
  slice l lo hi =
  firstn (Z.to_nat (Z.min hi (len l) - Z.min lo (len l))) (skipn (Z.to_nat (Z.min lo (len l))) l).
Proof.
  intros Hlo Hhi. unfold slice, adjust_index.
  destruct (lo <? 0) eqn:E1; [lia|].
  destruct (hi <? 0) eqn:E2; [lia|]. reflexivity.
Qed.

(** [min] in the upper bound of a slice changes nothing: slicing clamps. *)
Lemma slice_min (A : Type) (l : list A) (lo hi : Z) :
  0 <= lo -> lo <= hi -> slice l lo (Z.min hi (len l)) = slice l lo hi.
Proof.
  intros Hlo Hhi. pose proof (len_nonneg l).
  destruct (Z.le_ge_cases lo (len l)) as [Hin | Hout].
  - rewrite !slice_inside by lia. now rewrite <- Z.min_assoc, Z.min_id.
  - rewrite !slice_inside by lia.
    rewrite !(skipn_all2 l) by (unfold len in *; lia).
    now rewrite !firstn_nil.
Qed.

Lemma len_slice_inside (A : Type) (l : list A) (lo hi : Z) :
  0 <= lo <= len l -> lo <= hi ->
  len (slice l lo hi) = Z.min hi (len l) - lo.
Proof.
  intros Hlo Hhi. rewrite slice_inside by lia.
  unfold len in *. rewrite length_firstn, length_skipn. lia.
Qed.

(** Windows of [c] items taken at [i], [i + c], ... cover the sequence from
    [i] on, in order, with no window empty or longer than [c]. *)
Lemma windows_from (A : Type) (l : list A) (c : Z) :
  0 < c ->
  forall (fuel : nat) (i : Z),
    0 <= i -> (Z.to_nat (len l - i) <= fuel)%nat ->
    let ws := map (fun s => slice l s (s + c)) (range_loop fuel i (len l) c) in
    concat ws = skipn (Z.to_nat i) l /\
    len ws = Z.max 0 (ceil_div (len l - i) c) /\
    Forall (fun w => 0 < len w <= c) ws.
Proof.
  intros Hc. induction fuel as [|fuel IH]; intros i Hi Hf; cbn zeta.
  - simpl. repeat split.
    + symmetry. apply skipn_all2. unfold len in *. lia.
    + pose proof (@ceil_div_small (len l - i) c Hc). unfold len in *. simpl. lia.
    + constructor.
  - simpl range_loop. destruct (0 <? c) eqn:E; [|lia].
    destruct (i <? len l) eqn:E'.
    + apply Z.ltb_lt in E'.
      destruct (IH (i + c) ltac:(lia) ltac:(lia)) as (IHc & IHn & IHf).
      simpl map. repeat split.
      * simpl concat. rewrite IHc. rewrite slice_inside by lia.
        rewrite (Z.min_l i) by lia.
        rewrite <- (firstn_skipn (Z.to_nat (Z.min (i + c) (len l) - i))
                      (skipn (Z.to_nat i) l)) at 2.
        f_equal. rewrite skipn_skipn.
        destruct (Z.le_ge_cases (i + c) (len l)).
        -- f_equal. lia.
        -- rewrite !skipn_all2; unfold len in *; trivial; lia.
      * pose proof (@ceil_div_pos (len l - i) c Hc ltac:(lia)).
        rewrite (@ceil_div_step (len l - i) c Hc) in *.
        rewrite len_cons, IHn.
        replace (len l - (i + c)) with (len l - i - c) by lia. lia.
      * constructor; [|exact IHf].
        rewrite len_slice_inside by lia. lia.
    + apply Z.ltb_ge in E'. simpl. repeat split.
      * symmetry. apply skipn_all2. unfold len in *. lia.
      * pose proof (@ceil_div_small (len l - i) c Hc). unfold len in *. simpl. lia.
      * constructor.
Qed.

(** ** The event monad *)

Lemma bind_emit (A : Type) (e : event) (k : unit -> IO A) :
  bind (emit e) k = (e :: fst (k tt), snd (k tt)).
Proof. unfold bind, emit. now destruct (k tt). Qed.

Lemma bind_returned (A B : Type) (t : list event) (a : A) (k : A -> IO B) :
  bind (t, inr a) k = (t ++ fst (k a), snd (k a)).
Proof. unfold bind. now destruct (k a). Qed.

Lemma bind_pure (A B : Type) (a : A) (k : A -> IO B) :
  bind ([], inr a) k = k a.
Proof. unfold bind. now destruct (k a). Qed.

Lemma bind_raised (A B : Type) (t : list event) (e : exception) (k : A -> IO B) :
  bind (t, inl e) k = (t, inl e).
Proof. reflexivity. Qed.

Lemma for_each_emit (A : Type) (f : A -> event) (xs : list A) :
  for_each xs (fun x => emit (f x)) = (map f xs, inr tt).
Proof.
  induction xs as [|x xs IH]; [reflexivity|].
  cbn [for_each]. now rewrite bind_emit, IH.
Qed.

(** A loop whose body always returns, with the events [f x] for the item [x]. *)
Lemma for_each_returned (A : Type) (f : A -> list event) (body : A -> IO unit)
    (xs : list A) :
  Forall (fun x => body x = (f x, inr tt)) xs ->
  for_each xs body = (concat (map f xs), inr tt).
Proof.
  induction 1 as [|x xs Hx _ IH]; [reflexivity|].
  cbn [for_each]. now rewrite Hx, bind_returned, IH.
Qed.

(** ** [send] *)

(** A single number is masked to eight bits and goes out in one transfer. *)
Lemma send_number (self : ST7789Display) (n : Z) (is_data : bool) :
  send self (Number n) is_data 4096 =
  (sent self is_data [Z.land n 0xFF], inr tt).
Proof. reflexivity. Qed.

(** A sequence goes out window by window. *)
Lemma send_bytes (self : ST7789Display) (l : list Z) (is_data : bool) (c : Z) :
  0 < c ->
  send self (Bytes l) is_data c =
  (GPIO_output (_dc self) is_data ::
     map SpiDev_xfer
       (map (fun s => slice l s (s + c))
          (range_loop (Z.to_nat (len l)) 0 (len l) c)),
   inr tt).
Proof.
  intros Hc. unfold send, range.
  destruct (c =? 0) eqn:E; [lia|].
  rewrite bind_emit. unfold lift. rewrite bind_returned. simpl app.
  rewrite for_each_emit. cbn [fst snd].
  rewrite Z.sub_0_r, Z.abs_eq by apply len_nonneg.
  do 2 f_equal. rewrite map_map.
  apply map_ext_in. intros s Hs. f_equal.
  pose proof (@range_loop_from _ _ Hc _ _ _ Hs).
  apply slice_min; lia.
Qed.

(** A payload of one window's size at most is one transfer. *)
Lemma data_window (self : ST7789Display) (w : list Z) :
  0 < len w <= 4096 -> data self (Bytes w) = (sent self true w, inr tt).
Proof.
  intros Hw. unfold data. rewrite send_bytes by lia.
  destruct (@windows_from Z w 4096 ltac:(lia) (Z.to_nat (len w)) 0
              ltac:(lia) ltac:(lia)) as (Hc & Hn & _).
  cbn zeta in Hc, Hn.
  destruct (map _ (range_loop _ 0 (len w) 4096)) as [|w1 [|w2 ws]].
  - simpl in Hc. subst w. unfold len in Hw. simpl in Hw. lia.
  - simpl in Hc. rewrite app_nil_r in Hc. now subst w1.
  - exfalso. rewrite !len_cons in Hn.
    pose proof (len_nonneg ws).
    pose proof (@ceil_div_spec (len w - 0) 4096 ltac:(lia)). lia.
Qed.

(** ** Bytes of Python integers *)

Lemma land_0xFF (v : Z) : Z.land v 0xFF = v mod 256.
Proof. change 0xFF with (Z.ones 8). now rewrite Z.land_ones by lia. Qed.

Lemma shiftr_8 (v : Z) : Z.shiftr v 8 = v / 256.
Proof. now rewrite Z.shiftr_div_pow2 by lia. Qed.

Lemma mod_65536_split (v : Z) :
  v mod 65536 = v mod 256 + 256 * ((v / 256) mod 256).
Proof. change 65536 with (256 * 256). apply Z.rem_mul_r; lia. Qed.

(** The byte [data(v >> 8)] puts on the wire. *)
Lemma high_byte (v : Z) : Z.land (Z.shiftr v 8) 0xFF = (v mod 65536) / 256.
Proof.
  rewrite land_0xFF, shiftr_8, mod_65536_split.
  pose proof (Z.mod_pos_bound v 256 ltac:(lia)).
  rewrite Z.add_comm, Z.mul_comm, Z.div_add_l by lia.
  rewrite (Z.div_small (v mod 256)) by lia. lia.
Qed.

(** The byte [data(v & 0xFF)] puts on the wire. *)
Lemma low_byte (v : Z) : Z.land (Z.land v 0xFF) 0xFF = (v mod 65536) mod 256.
Proof.
  rewrite !land_0xFF, mod_65536_split.
  rewrite (Z.mul_comm 256), Z.mod_add by lia.
  reflexivity.
Qed.

Lemma be16_bytes (v : Z) :
  be16 v = [(v / 256) mod 256; v mod 256].
Proof.
  unfold be16. rewrite <- high_byte, land_0xFF, shiftr_8.
  rewrite <- low_byte, !land_0xFF, Z.mod_mod by lia. reflexivity.
Qed.

(** The pair is the quantity modulo [2^16], high byte first. *)
Lemma be16_value (v : Z) :
  256 * ((v / 256) mod 256) + v mod 256 = v mod 65536.
Proof. rewrite mod_65536_split. lia. Qed.

(** C3. For a buffer of length [N] and a chunk size [C > 0], [send] sets the
    select line once and then issues exactly ceil(N/C) SPI transfers, none
    longer than [C] bytes, whose payloads put end to end in transfer order
    are the buffer; an empty buffer gives no transfer. *)
Theorem send_chunking (self : ST7789Display) (buffer : list Z)
    (is_data : bool) (C : Z) :
  0 < C ->
  exists chunks : list (list Z),
    send self (Bytes buffer) is_data C =
      (GPIO_output (_dc self) is_data :: map SpiDev_xfer chunks, inr tt) /\
    xfers (trace (send self (Bytes buffer) is_data C)) = chunks /\
    len chunks = ceil_div (len buffer) C /\
    Forall (fun chunk => len chunk <= C) chunks /\
    concat chunks = buffer /\
    (buffer = [] -> chunks = []).
Proof.
  intros HC.
  destruct (@windows_from Z buffer C HC (Z.to_nat (len buffer)) 0
              ltac:(lia) ltac:(lia)) as (Hcat & Hlen & Hall).
  cbn zeta in Hcat, Hlen.
  set (chunks := map _ (range_loop _ 0 (len buffer) C)) in *.
  exists chunks. rewrite send_bytes by assumption. fold chunks.
  repeat split.
  - unfold trace. cbn [fst xfers]. clear. induction chunks as [|w ws IH];
      [reflexivity | simpl; now rewrite IH].
  - rewrite Hlen, Z.sub_0_r.
    pose proof (len_nonneg buffer).
    pose proof (@ceil_div_spec (len buffer) C HC). nia.
  - eapply Forall_impl; [|exact Hall]. cbn beta. intros; lia.
  - exact Hcat.
  - intros ->. subst chunks. reflexivity.
Qed.

Lemma send_chunking_witness :
  0 < 3 /\
  exists chunks : list (list Z),
    send example_display (Bytes [1; 2; 3; 4; 5; 6; 7]) true 3 =
      (GPIO_output (_dc example_display) true :: map SpiDev_xfer chunks,
       inr tt) /\
    xfers (trace (send example_display (Bytes [1; 2; 3; 4; 5; 6; 7]) true 3))
      = chunks /\
    len chunks = ceil_div (len [1; 2; 3; 4; 5; 6; 7]) 3 /\
    Forall (fun chunk => len chunk <= 3) chunks /\
    concat chunks = [1; 2; 3; 4; 5; 6; 7] /\
    ([1; 2; 3; 4; 5; 6; 7] = [] -> chunks = []).
Proof. split; [lia | apply send_chunking; lia]. Defined.

(** ** The write window *)

(** C4. [set_window(x0, y0, x1, y1)] puts on the wire, in this order: the
    CASET command, the big-endian 16-bit pairs of [x0 + offset_left] and
    [x1 + offset_left] as data, the RASET command, the pairs of
    [y0 + offset_top] and [y1 + offset_top] as data, then the RAMWR command.
    An omitted [x1] or [y1] is the configured width or height less one.
    Commands go out with the select line low and masked to a byte, data with
    the select line high. *)
Theorem set_window_wire (ST7789 : ST7789_opcodes) (self : ST7789Display)
    (x0 y0 : Z) (x1 y1 : option Z) :
  set_window ST7789 self x0 y0 x1 y1 =
  (sent self false [Z.land (CASET ST7789) 0xFF] ++
   sent_be16 self (x0 + _offset_left self) ++
   sent_be16 self (or_default x1 (_width self - 1) + _offset_left self) ++
   sent self false [Z.land (RASET ST7789) 0xFF] ++
   sent_be16 self (y0 + _offset_top self) ++
   sent_be16 self (or_default y1 (_height self - 1) + _offset_top self) ++
   sent self false [Z.land (RAMWR ST7789) 0xFF],
   inr tt).
Proof.
  unfold set_window, command, data. rewrite !send_number.
  rewrite !high_byte, !low_byte.
  destruct x1, y1; reflexivity.
Qed.

(** C10. [set_window] checks no range: whenever the four offset-adjusted
    coordinates are nonnegative, however large, no exception is raised and
    each coordinate [v] is transmitted as the byte [(v div 256) mod 256]
    followed by the byte [v mod 256], that is [v mod 65536] high byte
    first. *)
Theorem set_window_unchecked (ST7789 : ST7789_opcodes) (self : ST7789Display)
    (x0 y0 x1 y1 : Z) :
  0 <= x0 + _offset_left self -> 0 <= x1 + _offset_left self ->
  0 <= y0 + _offset_top self -> 0 <= y1 + _offset_top self ->
  let byte_pair v := [[(v / 256) mod 256]; [v mod 256]] in
  outcome (set_window ST7789 self x0 y0 (Some x1) (Some y1)) = inr tt /\
  xfers (trace (set_window ST7789 self x0 y0 (Some x1) (Some y1))) =
    [[Z.land (CASET ST7789) 0xFF]] ++
    byte_pair (x0 + _offset_left self) ++
    byte_pair (x1 + _offset_left self) ++
    [[Z.land (RASET ST7789) 0xFF]] ++
    byte_pair (y0 + _offset_top self) ++
    byte_pair (y1 + _offset_top self) ++
    [[Z.land (RAMWR ST7789) 0xFF]] /\
  Forall (fun v => 256 * ((v / 256) mod 256) + v mod 256 = v mod 65536)
    [x0 + _offset_left self; x1 + _offset_left self;
     y0 + _offset_top self; y1 + _offset_top self].
Proof.
  intros _ _ _ _ byte_pair. subst byte_pair.
  unfold set_window, command, data. rewrite !send_number.
  rewrite !land_0xFF, !shiftr_8, !Z.mod_mod by lia.
  repeat split.
  repeat constructor; apply be16_value.
Qed.

Lemma set_window_unchecked_witness :
  0 <= 0 + _offset_left example_display /\
  0 <= 70000 + _offset_left example_display /\
  0 <= 0 + _offset_top example_display /\
  0 <= 300 + _offset_top example_display /\
  xfers (trace (set_window ST7789_datasheet example_display 0 0
                  (Some 70000) (Some 300))) =
    [[0x2A]; [0]; [0]; [0x11]; [0x70]; [0x2B]; [0]; [0]; [1]; [44]; [0x2C]].
Proof.
  repeat (split; [vm_compute; discriminate|]).
  refine (proj1 (proj2 (@set_window_unchecked ST7789_datasheet example_display
                          0 0 70000 300 _ _ _ _)));
    vm_compute; discriminate.
Defined.

(** ** Outcomes and traces *)

Lemma outcome_bind (A B : Type) (m : IO A) (k : A -> IO B) :
  outcome (bind m k) =
  match outcome m with inl e => inl e | inr a => outcome (k a) end.
Proof.
  destruct m as [t [e|a]]; [reflexivity|].
  unfold bind, outcome. cbn [snd]. now destruct (k a).
Qed.

Lemma trace_bind (A B : Type) (m : IO A) (k : A -> IO B) :
  trace (bind m k) =
  match outcome m with
  | inl e => trace m
  | inr a => trace m ++ trace (k a)
  end.
Proof.
  destruct m as [t [e|a]]; [reflexivity|].
  unfold bind, trace, outcome. cbn [fst snd]. now destruct (k a).
Qed.

(** ** The configuration check *)

Lemma valid_rotation_spec (rotation : Z) :
  existsb (Z.eqb rotation) [0; 90; 180; 270] = true <-> valid_rotation rotation.
Proof.
  unfold valid_rotation. rewrite existsb_exists. split.
  - intros (x & Hin & Heq). apply Z.eqb_eq in Heq. now subst.
  - intros Hin. exists rotation. split; [assumption | apply Z.eqb_refl].
Qed.

Lemma quarter_turned_spec (rotation : Z) :
  existsb (Z.eqb rotation) [90; 270] = true <-> quarter_turned rotation.
Proof.
  unfold quarter_turned. rewrite existsb_exists. split.
  - intros (x & Hin & Heq). apply Z.eqb_eq in Heq. now subst.
  - intros Hin. exists rotation. split; [assumption | apply Z.eqb_refl].
Qed.

(** The check either fails or passes. *)
Lemma config_cases (w h r : Z) :
  (~ valid_rotation r \/ (quarter_turned r /\ w <> h)) \/
  (valid_rotation r /\ (quarter_turned r -> w = h)).
Proof.
  destruct (existsb (Z.eqb r) [0; 90; 180; 270]) eqn:Ev.
  - apply valid_rotation_spec in Ev.
    destruct (Z.eq_dec w h) as [E | E]; [now right|].
    destruct (existsb (Z.eqb r) [90; 270]) eqn:Eq.
    + apply quarter_turned_spec in Eq. now left; right.
    + right. split; [assumption|]. intros Hq.
      apply quarter_turned_spec in Hq. congruence.
  - left; left. intros Hv. apply valid_rotation_spec in Hv. congruence.
Qed.

Ltac outcome_steps :=
  repeat (rewrite outcome_bind; cbn [outcome emit ret lift snd]).

(** The initialisation sequence and the reset pulse raise nothing. *)
Lemma _init_returns (ST7789 : ST7789_opcodes) (self : ST7789Display) :
  outcome (_init ST7789 self) = inr tt.
Proof.
  unfold _init, command, data. rewrite !send_number.
  destruct (_invert self); reflexivity.
Qed.

Lemma reset_returns (self : ST7789Display) : outcome (reset self) = inr tt.
Proof. unfold reset. destruct (_rst self); reflexivity. Qed.

(** ** Construction, reported geometry and optional pins *)

Section Construction.

Variable ST7789 : ST7789_opcodes.
Variables port dc spi_mode : Z.
Variables cs backlight rst : option Z.
Variable invert : bool.
Variables spi_speed_hz offset_left offset_top : Z.

#[local] Abbreviation new w h r :=
  (__init__ ST7789 port dc spi_mode cs backlight rst w h r invert
     spi_speed_hz offset_left offset_top).

(** The object a successful construction returns. *)
#[local] Abbreviation configured w h r :=
  {| _spi := {| spi_port := port; spi_cs := cs; mode := spi_mode;
                lsbfirst := false; max_speed_hz := spi_speed_hz |};
     _dc := dc; _rst := rst; _width := w; _height := h; _rotation := r;
     _invert := invert; _offset_left := offset_left;
     _offset_top := offset_top; _backlight := backlight |}.

Lemma init_rejects (w h r : Z) :
  ~ valid_rotation r \/ (quarter_turned r /\ w <> h) ->
  configuration_error (new w h r).
Proof.
  intros Hbad. unfold __init__.
  destruct (existsb (Z.eqb r) [0; 90; 180; 270]) eqn:Ev.
  - destruct Hbad as [Hn | [Hq Hne]].
    + now apply valid_rotation_spec in Ev.
    + apply quarter_turned_spec in Hq. apply Z.eqb_neq in Hne.
      rewrite Hq, Hne. now eexists _, _.
  - now eexists _, _.
Qed.

Lemma init_accepts (w h r : Z) :
  valid_rotation r -> (quarter_turned r -> w = h) ->
  outcome (new w h r) = inr (configured w h r).
Proof.
  intros Hv Hsq. unfold __init__.
  apply valid_rotation_spec in Hv. rewrite Hv.
  assert (negb (w =? h) && existsb (Z.eqb r) [90; 270] = false) as ->.
  { destruct (existsb (Z.eqb r) [90; 270]) eqn:Eq; [|apply andb_false_r].
    apply quarter_turned_spec in Eq. rewrite (Hsq Eq), Z.eqb_refl.
    reflexivity. }
  cbn [negb]. outcome_steps.
  destruct backlight; outcome_steps;
    (destruct rst; outcome_steps;
     [rewrite reset_returns|]; rewrite _init_returns; reflexivity).
Qed.

Lemma init_outcome (w h r : Z) (self : ST7789Display) :
  outcome (new w h r) = inr self ->
  self = configured w h r /\ valid_rotation r /\ (quarter_turned r -> w = h).
Proof.
  intros Hnew. destruct (config_cases w h r) as [Hbad | [Hv Hsq]].
  - destruct (init_rejects Hbad) as (fmt & args & E).
    rewrite E in Hnew. discriminate.
  - rewrite (init_accepts Hv Hsq) in Hnew. now inversion Hnew.
Qed.

(** C5. Construction raises its configuration error exactly when the
    rotation is not one of 0, 90, 180, 270, or when it is 90 or 270 and the
    width differs from the height; otherwise it returns the controller.  So
    rotation 45 is rejected whatever the geometry, rotation 90 is rejected
    for 240x320, and every rotation of the four passes on a square panel. *)
Theorem init_validation :
  (forall w h r,
     configuration_error (new w h r) <->
     ~ valid_rotation r \/ (quarter_turned r /\ w <> h)) /\
  (forall w h r,
     (exists self, outcome (new w h r) = inr self) <->
     ~ (~ valid_rotation r \/ (quarter_turned r /\ w <> h))) /\
  (forall w h, configuration_error (new w h 45)) /\
  configuration_error (new 240 320 90) /\
  (forall n r, valid_rotation r ->
     exists self, outcome (new n n r) = inr self).
Proof.
  assert (forall w h r,
            (exists self, outcome (new w h r) = inr self) <->
            ~ (~ valid_rotation r \/ (quarter_turned r /\ w <> h))) as Hret.
  { intros w h r. split.
    - intros (self & Hnew) Hbad.
      destruct (init_rejects Hbad) as (fmt & args & E).
      rewrite E in Hnew. discriminate.
    - intros Hok. destruct (config_cases w h r) as [Hbad | [Hv Hsq]];
        [contradiction|].
      eexists. now apply init_accepts. }
  split; [|split; [|split; [|split]]].
  - intros w h r. split; [|apply init_rejects].
    intros (fmt & args & E).
    destruct (config_cases w h r) as [Hbad | [Hv Hsq]]; [assumption|].
    pose proof (init_accepts Hv Hsq) as Ha. rewrite E in Ha. discriminate.
  - exact Hret.
  - intros w h. apply init_rejects. left. unfold valid_rotation. simpl. lia.
  - apply init_rejects. right. unfold quarter_turned. simpl. split; lia.
  - intros n r Hv. apply Hret.
    intros [Hn | [_ Hne]]; [now apply Hn | now apply Hne].
Qed.

(** C7. On a controller that construction returned, the [width] and
    [height] accessors give the configured width and height when the rotation
    is 0 or 180, and give them swapped when it is 90 or 270. *)
Theorem reported_geometry (configured_width configured_height rotation : Z)
    (self : ST7789Display) :
  outcome (new configured_width configured_height rotation) = inr self ->
  (rotation = 0 \/ rotation = 180 ->
     width self = configured_width /\ height self = configured_height) /\
  (rotation = 90 \/ rotation = 270 ->
     width self = configured_height /\ height self = configured_width).
Proof.
  intros Hnew. apply init_outcome in Hnew. destruct Hnew as (-> & _ & _).
  unfold width, height. cbn [_rotation _width _height].
  split; intros [-> | ->]; split; reflexivity.
Qed.

(** C8. On a controller constructed without a reset pin, [reset()] writes no
    GPIO line, makes no SPI transfer and waits for nothing, and raises
    nothing; likewise [set_backlight(v)] for every [v] when no backlight pin
    was given.  With a reset pin, [reset()] drives it high, waits 500 ms,
    drives it low, waits 500 ms, drives it high and waits 500 ms. *)
Theorem optional_pins (w h r : Z) (self : ST7789Display) :
  outcome (new w h r) = inr self ->
  (rst = None -> reset self = ([], inr tt)) /\
  (backlight = None -> forall v, set_backlight self v = ([], inr tt)) /\
  (forall pin, rst = Some pin ->
     reset self =
     ([GPIO_output pin true; time_sleep 500;
       GPIO_output pin false; time_sleep 500;
       GPIO_output pin true; time_sleep 500], inr tt)).
Proof.
  intros Hnew. apply init_outcome in Hnew. destruct Hnew as (-> & _ & _).
  unfold reset, set_backlight. cbn [_rst _backlight].
  repeat split.
  - now intros ->.
  - now intros ->.
  - now intros pin ->.
Qed.

End Construction.

Lemma init_validation_witness :
  valid_rotation 90 /\
  exists self,
    outcome (__init__ ST7789_datasheet 0 9 0 (Some 0) (Some 19) None
               240 240 90 true 4000000 0 0) = inr self.
Proof.
  assert (valid_rotation 90) as Hv by (unfold valid_rotation; simpl; tauto).
  split; [exact Hv|].
  exact (proj2 (proj2 (proj2 (proj2
           (@init_validation ST7789_datasheet 0 9 0 (Some 0) (Some 19) None
              true 4000000 0 0)))) 240 90 Hv).
Defined.

Lemma reported_geometry_witness :
  exists self,
    outcome (__init__ ST7789_datasheet 0 9 0 (Some 0) (Some 19) None
               240 320 0 true 4000000 0 0) = inr self /\
    width self = 240 /\ height self = 320.
Proof.
  eexists. split; [lazy; reflexivity|].
  refine (proj1 (@reported_geometry ST7789_datasheet 0 9 0 (Some 0) (Some 19)
                   None true 4000000 0 0 240 320 0 _ _) (or_introl eq_refl)).
  lazy; reflexivity.
Defined.

Lemma optional_pins_witness :
  (exists self,
     outcome (__init__ ST7789_datasheet 0 9 0 (Some 0) None None
                240 240 90 true 4000000 0 0) = inr self /\
     reset self = ([], inr tt) /\
     forall v, set_backlight self v = ([], inr tt)) /\
  (exists self,
     outcome (__init__ ST7789_datasheet 0 9 0 (Some 0) None (Some 5)
                240 240 90 true 4000000 0 0) = inr self /\
     reset self =
     ([GPIO_output 5 true; time_sleep 500;
       GPIO_output 5 false; time_sleep 500;
       GPIO_output 5 true; time_sleep 500], inr tt)).
Proof.
  split.
  - eexists. split; [lazy; reflexivity|].
    pose proof (@optional_pins ST7789_datasheet 0 9 0 (Some 0) None None
                  true 4000000 0 0 240 240 90 _ eq_refl) as (Hr & Hb & _).
    split; [exact (Hr eq_refl) | exact (Hb eq_refl)].
  - eexists. split; [lazy; reflexivity|].
    pose proof (@optional_pins ST7789_datasheet 0 9 0 (Some 0) None (Some 5)
                  true 4000000 0 0 240 240 90 _ eq_refl) as (_ & _ & Hp).
    exact (Hp 5 eq_refl).
Defined.

(** ** numpy arrays *)

Lemma same_array_refl (a : ndarray) : same_array a a.
Proof. now repeat split. Qed.

Lemma flat_map_agree (A B : Type) (f g : A -> list B) (l : list A) :
  (forall x, In x l -> f x = g x) -> flat_map f l = flat_map g l.
Proof.
  induction l as [|x l IH]; intros H; [reflexivity|].
  simpl. rewrite (H x) by now left.
  rewrite IH; [reflexivity|]. intros y Hy. apply H. now right.
Qed.

Lemma len_flat_map_const (A B : Type) (f : A -> list B) (k : Z) (l : list A) :
  (forall x, In x l -> len (f x) = k) -> len (flat_map f l) = len l * k.
Proof.
  induction l as [|x l IH]; intros H; [reflexivity|].
  simpl flat_map. rewrite len_app, len_cons, (H x) by now left.
  rewrite IH; [lia|]. intros y Hy. apply H. now right.
Qed.

Lemma len_seq (start n : nat) : len (seq start n) = Z.of_nat n.
Proof. unfold len. now rewrite length_seq. Qed.

(** Arrays with the same shape and items have the same bytes. *)
Lemma tobytes_same (a b : ndarray) : same_array a b -> tobytes a = tobytes b.
Proof.
  intros (H0 & H1 & H2 & Hitem). unfold tobytes. rewrite <- H0, <- H1, <- H2.
  apply flat_map_agree. intros i Hi. apply in_seq in Hi.
  apply flat_map_agree. intros j Hj. apply in_seq in Hj.
  apply flat_map_agree. intros c Hc. apply in_seq in Hc.
  rewrite Hitem by lia. reflexivity.
Qed.

Lemma len_tobytes (m : ndarray) :
  len (tobytes m) =
  2 * Z.of_nat (dim0 m) * Z.of_nat (dim1 m) * Z.of_nat (dim2 m).
Proof.
  unfold tobytes.
  rewrite (@len_flat_map_const _ _ _
             (Z.of_nat (dim1 m) * (Z.of_nat (dim2 m) * 2))).
  - rewrite len_seq. lia.
  - intros i _. rewrite (@len_flat_map_const _ _ _ (Z.of_nat (dim2 m) * 2)).
    + rewrite len_seq. lia.
    + intros j _. rewrite (@len_flat_map_const _ _ _ 2).
      * rewrite len_seq. lia.
      * reflexivity.
Qed.

(** The four cases of [rot90]. *)
Lemma rot90_cases (m : ndarray) (k : Z) :
  rot90 m k = m \/ rot90 m k = flip (flip m 0) 1 \/
  rot90 m k = transpose (flip m 1) \/ rot90 m k = flip (transpose m) 1.
Proof.
  unfold rot90. destruct (k mod 4 =? 0); [now left|].
  destruct (k mod 4 =? 2); [now right; left|].
  destruct (k mod 4 =? 1); [now right; right; left | now right; right; right].
Qed.

(** A rotation keeps the channels and the number of pixels. *)
Lemma rot90_shape (m : ndarray) (k : Z) :
  dim2 (rot90 m k) = dim2 m /\
  ((dim0 (rot90 m k) = dim0 m /\ dim1 (rot90 m k) = dim1 m) \/
   (dim0 (rot90 m k) = dim1 m /\ dim1 (rot90 m k) = dim0 m)).
Proof.
  destruct (rot90_cases m k) as [-> | [-> | [-> | ->]]]; simpl; auto.
Qed.

(** Quarter turns by [rot90] are quarter turns counter-clockwise. *)
Lemma rot90_quarter_turns (m : ndarray) (k : nat) :
  (k < 4)%nat -> same_array (rot90 m (Z.of_nat k)) (Nat.iter k rotate_ccw m).
Proof.
  intros Hk.
  destruct k as [|[|[|[|k]]]]; [ | | | | lia].
  - apply same_array_refl.
  - apply same_array_refl.
  - apply same_array_refl.
  - repeat split. cbn. intros i j c Hi Hj Hc. f_equal. lia.
Qed.

(** ** The pixel encoder *)

Lemma land_byte_mask (v mask : Z) :
  0 <= mask < 256 -> 0 <= Z.land v mask < 256.
Proof.
  intros Hm.
  replace (Z.land v mask) with (Z.land (Z.land v mask) 0xFF).
  - rewrite land_0xFF. apply Z.mod_pos_bound. lia.
  - rewrite <- Z.land_assoc. f_equal. rewrite land_0xFF.
    apply Z.mod_small. assumption.
Qed.

Lemma lor_uint16 (a b : Z) :
  0 <= a < 65536 -> 0 <= b < 65536 -> 0 <= Z.lor a b < 65536.
Proof.
  intros Ha Hb.
  replace (Z.lor a b) with ((Z.lor a b) mod 2 ^ 16).
  - apply Z.mod_pos_bound. lia.
  - rewrite <- Z.land_ones, Z.land_lor_distr_l, !Z.land_ones by lia.
    now rewrite !Z.mod_small by (change (2 ^ 16) with 65536; lia).
Qed.

Lemma packed_uint16 (r g b : Z) : 0 <= packed r g b < 65536.
Proof.
  unfold packed. apply lor_uint16; [apply lor_uint16|].
  - apply Z.mod_pos_bound. lia.
  - apply Z.mod_pos_bound. lia.
  - pose proof (@land_byte_mask (b mod 65536) 0xf8 ltac:(lia)) as Hb.
    rewrite Z.shiftr_div_pow2 by lia. change (2 ^ 3) with 8.
    split; [apply Z.div_pos; lia|].
    apply Z.div_lt_upper_bound; lia.
Qed.

Lemma packed_8bit (r g b : Z) :
  0 <= r < 256 -> 0 <= g < 256 -> 0 <= b < 256 ->
  packed r g b = rgb565 r g b.
Proof.
  intros Hr Hg Hb. unfold packed, rgb565.
  rewrite (Z.mod_small r), (Z.mod_small g), (Z.mod_small b) by lia.
  pose proof (@land_byte_mask r 0xF8 ltac:(lia)).
  pose proof (@land_byte_mask g 0xFC ltac:(lia)).
  rewrite !Z.shiftl_mul_pow2 by lia.
  rewrite !Z.mod_small; [reflexivity | |];
    (change (2 ^ 3) with 8 || change (2 ^ 8) with 256); lia.
Qed.

(** The encoder returns on every image with three channels or more, and
    only on those; its [result] has the shape of the rotated image, one
    channel, and the packed value of each pixel. *)
Lemma image_to_rgb565_inv (image : ndarray) (rotation : Z) (result : ndarray) :
  image_to_rgb565 image rotation = inr result ->
  let pb := rot90 image (rotation / 90) in
  (3 <= dim2 image)%nat /\
  dim0 result = dim0 pb /\ dim1 result = dim1 pb /\ dim2 result = 1%nat /\
  forall i j c,
    item result i j c = packed (item pb i j 0) (item pb i j 1) (item pb i j 2).
Proof.
  unfold image_to_rgb565, take_channel. cbn zeta.
  pose proof (proj1 (rot90_shape image (rotation / 90))) as H2.
  cbn [astype_uint16 map_items dim2]. rewrite H2.
  destruct (0 <? dim2 image)%nat eqn:E0;
    destruct (1 <? dim2 image)%nat eqn:E1;
    destruct (2 <? dim2 image)%nat eqn:E2; try discriminate.
  intros [= <-]. apply Nat.ltb_lt in E2.
  repeat split. assumption.
Qed.

Lemma image_to_rgb565_returns (image : ndarray) (rotation : Z) :
  (3 <= dim2 image)%nat ->
  exists result, image_to_rgb565 image rotation = inr result.
Proof.
  intros H3. unfold image_to_rgb565, take_channel. cbn zeta.
  pose proof (proj1 (rot90_shape image (rotation / 90))) as H2.
  cbn [astype_uint16 map_items dim2]. rewrite H2.
  destruct (0 <? dim2 image)%nat eqn:E0; [|apply Nat.ltb_ge in E0; lia].
  destruct (1 <? dim2 image)%nat eqn:E1; [|apply Nat.ltb_ge in E1; lia].
  destruct (2 <? dim2 image)%nat eqn:E2; [|apply Nat.ltb_ge in E2; lia].
  now eexists.
Qed.

(** C1. For every pixel of the rotated image whose channels R, G, B are
    8-bit values, the encoder's 16-bit value before the byte swap is
    [(R & 0xF8) << 8 | (G & 0xFC) << 3 | (B & 0xF8) >> 3]; so the pixel
    (0xF8, 0xFC, 0xF8) gives 0xFFFF, (0, 0, 0) gives 0x0000 and (0xF8, 0, 0)
    gives 0xF800. *)
Theorem rgb565_bits (image : ndarray) (rotation : Z) (i j : nat) :
  (3 <= dim2 image)%nat ->
  let pb := rot90 image (rotation / 90) in
  let R := item pb i j 0 in
  let G := item pb i j 1 in
  let B := item pb i j 2 in
  exists result,
    image_to_rgb565 image rotation = inr result /\
    (0 <= R < 256 -> 0 <= G < 256 -> 0 <= B < 256 ->
     item result i j 0 =
     Z.lor (Z.lor (Z.shiftl (Z.land R 0xF8) 8) (Z.shiftl (Z.land G 0xFC) 3))
           (Z.shiftr (Z.land B 0xF8) 3)) /\
    ((R, G, B) = (0xF8, 0xFC, 0xF8) -> item result i j 0 = 0xFFFF) /\
    ((R, G, B) = (0, 0, 0) -> item result i j 0 = 0x0000) /\
    ((R, G, B) = (0xF8, 0, 0) -> item result i j 0 = 0xF800).
Proof.
  intros H3 pb R G B.
  destruct (image_to_rgb565_returns image rotation H3) as (result & Hres).
  exists result. split; [assumption|].
  destruct (image_to_rgb565_inv _ _ Hres) as (_ & _ & _ & _ & Hitem).
  rewrite Hitem. fold pb R G B.
  split; [|split; [|split]].
  - apply packed_8bit.
  - now intros [= -> -> ->].
  - now intros [= -> -> ->].
  - now intros [= -> -> ->].
Qed.

Lemma rgb565_bits_witness :
  (3 <= dim2 example_image)%nat /\
  exists result,
    image_to_rgb565 example_image 0 = inr result /\
    item result 0 0 0 = 0xF800 /\ item result 0 1 0 = 0x07E0.
Proof.
  split; [simpl; lia|].
  destruct (@rgb565_bits example_image 0 0 0 ltac:(simpl; lia))
    as (result & Hres & _ & _ & _ & Hred).
  destruct (@rgb565_bits example_image 0 0 1 ltac:(simpl; lia))
    as (result' & Hres' & Hgreen & _).
  exists result. split; [exact Hres|]. split; [exact (Hred eq_refl)|].
  rewrite Hres in Hres'. injection Hres' as <-.
  apply Hgreen; simpl; lia.
Defined.

(** The bytes of a byte-swapped [uint16] item in memory: high byte first. *)
Lemma item_bytes_byteswap (v : Z) :
  0 <= v < 65536 ->
  item_bytes (Z.lor (Z.shiftl (Z.land v 0xFF) 8) (Z.shiftr v 8)) =
  [v / 256; v mod 256].
Proof.
  intros Hv. unfold item_bytes.
  assert (0 <= v / 256 < 256) as Hhi.
  { split; [apply Z.div_pos; lia | apply Z.div_lt_upper_bound; lia]. }
  pose proof (Z.mod_pos_bound v 256 ltac:(lia)) as Hlo.
  f_equal; [|f_equal].
  - rewrite Z.land_lor_distr_l, !land_0xFF, shiftr_8.
    rewrite Z.shiftl_mul_pow2 by lia. change (2 ^ 8) with 256.
    rewrite Z.mod_mul by lia. rewrite (Z.mod_small (v / 256)) by lia.
    apply Z.lor_0_l.
  - rewrite Z.shiftr_lor, !shiftr_8, land_0xFF.
    rewrite Z.shiftl_mul_pow2 by lia. change (2 ^ 8) with 256.
    rewrite Z.div_mul by lia. rewrite (Z.div_small (v / 256)) by lia.
    apply Z.lor_0_r.
Qed.

(** The byte stream is the array [result] row by row, high bytes first. *)
Lemma image_to_data_rows (image : ndarray) (rotation : Z) (result : ndarray) :
  image_to_rgb565 image rotation = inr result ->
  image_to_data image rotation = inr (big_endian_rows result).
Proof.
  intros Hres.
  destruct (image_to_rgb565_inv _ _ Hres) as (_ & _ & _ & H2 & Hitem).
  unfold image_to_data. rewrite Hres. f_equal.
  unfold tobytes, big_endian_rows, byteswap. cbn [map_items dim0 dim1 dim2 item].
  rewrite H2.
  apply flat_map_agree. intros i _. apply flat_map_agree. intros j _.
  cbn [seq flat_map]. rewrite app_nil_r.
  apply item_bytes_byteswap. rewrite Hitem. apply packed_uint16.
Qed.

(** C2. The encoder writes every 16-bit value most significant byte first
    and puts the pairs end to end in row-major scan order; a single-pixel
    image whose RGB565 value is 0xF800 gives exactly the bytes 0xF8, 0x00
    and not 0x00, 0xF8. *)
Theorem big_endian_stream (image : ndarray) (rotation : Z) (result : ndarray) :
  image_to_rgb565 image rotation = inr result ->
  image_to_data image rotation = inr (big_endian_rows result) /\
  (dim0 image = 1%nat -> dim1 image = 1%nat -> item result 0 0 0 = 0xF800 ->
   image_to_data image rotation = inr [0xF8; 0x00] /\
   image_to_data image rotation <> inr [0x00; 0xF8]).
Proof.
  intros Hres.
  destruct (image_to_rgb565_inv _ _ Hres) as (_ & H0 & H1 & _ & _).
  pose proof (image_to_data_rows _ _ Hres) as Hdata.
  split; [exact Hdata|].
  intros Hh Hw Hv. rewrite Hdata. unfold big_endian_rows.
  destruct (rot90_shape image (rotation / 90)) as (_ & [[E0 E1] | [E0 E1]]);
    rewrite H0, H1, E0, E1, ?Hh, ?Hw; cbn [seq flat_map app]; rewrite Hv;
    (split; [reflexivity | discriminate]).
Qed.

Lemma big_endian_stream_witness :
  image_to_data (array [[(0xF8, 0, 0)]]) 0 = inr [0xF8; 0x00].
Proof.
  refine (proj1 (proj2 (@big_endian_stream (array [[(0xF8, 0, 0)]]) 0 _
                          eq_refl) eq_refl eq_refl eq_refl)).
Defined.

Lemma len_big_endian_rows (result : ndarray) :
  len (big_endian_rows result) =
  2 * Z.of_nat (dim1 result) * Z.of_nat (dim0 result).
Proof.
  unfold big_endian_rows.
  rewrite (@len_flat_map_const _ _ _ (Z.of_nat (dim1 result) * 2)).
  - rewrite len_seq. lia.
  - intros i _. rewrite (@len_flat_map_const _ _ _ 2).
    + rewrite len_seq. lia.
    + reflexivity.
Qed.

(** The encoder gives two bytes per pixel, whatever the rotation. *)
Lemma len_image_to_data (image : ndarray) (rotation : Z) :
  (3 <= dim2 image)%nat ->
  exists bytes,
    image_to_data image rotation = inr bytes /\
    len bytes = 2 * Z.of_nat (dim1 image) * Z.of_nat (dim0 image).
Proof.
  intros H3.
  destruct (image_to_rgb565_returns image rotation H3) as (result & Hres).
  destruct (image_to_rgb565_inv _ _ Hres) as (_ & H0 & H1 & _).
  exists (big_endian_rows result).
  split; [apply (image_to_data_rows _ _ Hres)|].
  rewrite len_big_endian_rows, H0, H1.
  destruct (rot90_shape image (rotation / 90)) as (_ & [[-> ->] | [-> ->]]);
    lia.
Qed.

(** C9. For an RGB image [H] tall and [W] wide (three channels) the encoder
    gives exactly [2 * W * H] bytes, two per pixel, whatever the rotation (so
    for each of 0, 90, 180, 270); [display] then opens the full window and
    sends these bytes as ceil(2*W*H / 4096) data chunks, in order. *)
Theorem frame_bytes (ST7789 : ST7789_opcodes) (self : ST7789Display)
    (image : ndarray) :
  dim2 image = 3%nat ->
  let W := Z.of_nat (dim1 image) in
  let H := Z.of_nat (dim0 image) in
  (forall rotation, exists bytes,
     image_to_data image rotation = inr bytes /\ len bytes = 2 * W * H) /\
  (exists bytes chunks,
     image_to_data image (_rotation self) = inr bytes /\
     display ST7789 self image =
       (trace (set_window ST7789 self 0 0 None None) ++
        flat_map (sent self true) chunks, inr tt) /\
     len chunks = ceil_div (2 * W * H) 4096 /\
     Forall (fun chunk => 0 < len chunk <= 4096) chunks /\
     concat chunks = bytes).
Proof.
  intros H3 W H.
  assert (3 <= dim2 image)%nat as H3' by lia.
  split; [intros rotation; now apply len_image_to_data|].
  destruct (len_image_to_data image (_rotation self) H3')
    as (bytes & Hbytes & Hlen).
  fold W H in Hlen.
  destruct (@windows_from Z bytes 4096 ltac:(lia) (Z.to_nat (len bytes)) 0
              ltac:(lia) ltac:(lia)) as (Hcat & Hn & Hall).
  cbn zeta in Hcat, Hn.
  set (starts := range_loop (Z.to_nat (len bytes)) 0 (len bytes) 4096) in *.
  exists bytes, (map (fun s => slice bytes s (s + 4096)) starts).
  split; [exact Hbytes|]. split; [|split; [|split]].
  - assert (for_each starts
              (fun i => data self (Bytes (slice bytes i (i + 4096)))) =
            (flat_map (sent self true)
               (map (fun s => slice bytes s (s + 4096)) starts), inr tt))
      as Hloop.
    { rewrite (@for_each_returned _
                 (fun i => sent self true (slice bytes i (i + 4096)))).
      - now rewrite flat_map_concat_map, map_map.
      - apply Forall_map in Hall. eapply Forall_impl; [|exact Hall].
        cbn beta. intros s Hs. now apply data_window. }
    unfold display. rewrite set_window_wire, bind_returned.
    unfold trace. cbn [fst snd]. rewrite Hbytes.
    unfold lift, range. change (4096 =? 0) with false. cbv iota.
    rewrite !bind_pure.
    rewrite Z.sub_0_r, Z.abs_eq by apply len_nonneg. fold starts.
    rewrite Hloop. reflexivity.
  - rewrite Hn, Z.sub_0_r, Hlen.
    pose proof (@ceil_div_spec (2 * W * H) 4096 ltac:(lia)). lia.
  - exact Hall.
  - exact Hcat.
Qed.

Lemma frame_bytes_witness :
  dim2 example_image = 3%nat /\
  exists bytes,
    image_to_data example_image 90 = inr bytes /\ len bytes = 2 * 2 * 1.
Proof.
  split; [reflexivity|].
  exact (proj1 (@frame_bytes ST7789_datasheet example_display example_image
                  eq_refl) 90).
Defined.

(** ** Rotation *)

(** Encoding at rotation 0 only looks at the shape and at the items inside
    it. *)
Lemma image_to_data_same (a b : ndarray) :
  same_array a b -> image_to_data a 0 = image_to_data b 0.
Proof.
  intros (H0 & H1 & H2 & Hitem).
  unfold image_to_data, image_to_rgb565, take_channel.
  change (rot90 a (0 / 90)) with a. change (rot90 b (0 / 90)) with b.
  cbn [astype_uint16 map_items dim2]. rewrite <- H2.
  destruct (0 <? dim2 a)%nat eqn:E0; [|reflexivity].
  destruct (1 <? dim2 a)%nat eqn:E1; [|reflexivity].
  destruct (2 <? dim2 a)%nat eqn:E2; [|reflexivity].
  apply Nat.ltb_lt in E0, E1, E2.
  f_equal. apply tobytes_same. repeat split; try assumption.
  cbn. intros i j c Hi Hj _. now rewrite !Hitem by assumption.
Qed.

(** Encoding at a rotation is encoding the array [rot90] returns. *)
Lemma image_to_data_rot90 (image : ndarray) (rotation : Z) :
  image_to_data image rotation =
  image_to_data (rot90 image (rotation / 90)) 0.
Proof. reflexivity. Qed.

(** C6. Encoding an image at rotation 90 gives the byte stream of the image
    turned a quarter counter-clockwise (as wide as the source is tall, as tall
    as it is wide) and encoded at rotation 0; and for each rotation r of 0,
    90, 180, 270, encoding at r is encoding at 0 the image turned r/90
    quarters counter-clockwise. *)
Theorem rotation_before_packing (image : ndarray) (rotation : Z) :
  valid_rotation rotation ->
  image_to_data image rotation =
    image_to_data (Nat.iter (Z.to_nat (rotation / 90)) rotate_ccw image) 0 /\
  image_to_data image 90 = image_to_data (rotate_ccw image) 0 /\
  dim0 (rotate_ccw image) = dim1 image /\
  dim1 (rotate_ccw image) = dim0 image.
Proof.
  intros Hv. split; [|split; [|split; reflexivity]].
  - rewrite image_to_data_rot90. apply image_to_data_same.
    assert (exists k, (k < 4)%nat /\ rotation / 90 = Z.of_nat k) as (k & Hk & ->).
    { destruct Hv as [<- | [<- | [<- | [<- | []]]]];
        [exists 0%nat | exists 1%nat | exists 2%nat | exists 3%nat];
        (split; [lia | reflexivity]). }
    rewrite Nat2Z.id. now apply rot90_quarter_turns.
  - rewrite image_to_data_rot90. apply image_to_data_same.
    apply (@rot90_quarter_turns image 1). lia.
Qed.

Lemma rotation_before_packing_witness :
  valid_rotation 270 /\
  image_to_data example_image 270 =
    image_to_data (rotate_ccw (rotate_ccw (rotate_ccw example_image))) 0 /\
  image_to_data example_image 90 = image_to_data (rotate_ccw example_image) 0.
Proof.
  assert (valid_rotation 270) as Hv by (unfold valid_rotation; simpl; tauto).
  split; [exact Hv|].
  destruct (@rotation_before_packing example_image 270 Hv) as (H270 & H90 & _).
  split; [exact H270 | exact H90].
Defined.

(** The test picture at the four rotations: turned a quarter counter-clockwise
    the right-hand (green) pixel comes first, then the red one. *)
Example example_image_streams :
  image_to_data example_image 0 = inr [0xF8; 0x00; 0x07; 0xE0] /\
  image_to_data example_image 90 = inr [0x07; 0xE0; 0xF8; 0x00] /\
  image_to_data example_image 180 = inr [0x07; 0xE0; 0xF8; 0x00] /\
  image_to_data example_image 270 = inr [0xF8; 0x00; 0x07; 0xE0] /\
  image_to_data (rotate_ccw example_image) 0 = inr [0x07; 0xE0; 0xF8; 0x00].
Proof. repeat split. Qed.

(** ** Worked examples *)

Example send_seven_by_three :
  send example_display (Bytes [1; 2; 3; 4; 5; 6; 7]) true 3 =
  ([GPIO_output 9 true; SpiDev_xfer [1; 2; 3]; SpiDev_xfer [4; 5; 6];
    SpiDev_xfer [7]], inr tt).
Proof. reflexivity. Qed.

(** A chunk size of zero is refused by [range], after the select line was
    set. *)
Example send_chunk_size_zero :
  send example_display (Bytes [1; 2]) true 0 =
  ([GPIO_output 9 true],
   inl (ValueError "range() arg 3 must not be zero" [])).
Proof. reflexivity. Qed.

Example full_window_of_example_display :
  xfers (trace (set_window ST7789_datasheet example_display 0 0 None None)) =
  [[0x2A]; [0]; [0]; [0]; [239]; [0x2B]; [0]; [0]; [0]; [239]; [0x2C]].
Proof. reflexivity. Qed.

Example rotation_45_rejected :
  __init__ ST7789_datasheet 0 9 0 (Some 0) (Some 19) None
    240 240 45 true 4000000 0 0 =
  ([], inl (ValueError "Invalid rotation {}" [45])).
Proof. reflexivity. Qed.

Example quarter_turn_of_240x320_rejected :
  __init__ ST7789_datasheet 0 9 0 (Some 0) (Some 19) None
    240 320 90 true 4000000 0 0 =
  ([], inl (ValueError "Invalid rotation {} for {}x{} resolution"
              [90; 240; 320])).
Proof. reflexivity. Qed.

(** * Further properties of the driver *)

(** ** [send] at its edges *)

Lemma range_loop_downwards (fuel : nat) (stop step : Z) :
  step < 0 -> 0 <= stop -> range_loop fuel 0 stop step = [].
Proof.
  intros Hs Hstop. destruct fuel as [|fuel]; [reflexivity|]. simpl.
  destruct (0 <? step) eqn:E; [lia|].
  destruct (stop <? 0) eqn:E'; [lia | reflexivity].
Qed.

(** X1. A chunk size of zero makes [send] raise [ValueError] (from [range])
    for every payload, after the select line was written and before any SPI
    transfer. *)
Theorem send_zero_chunk_size (self : ST7789Display) (payload_ : payload)
    (is_data : bool) :
  send self payload_ is_data 0 =
  ([GPIO_output (_dc self) is_data],
   inl (ValueError "range() arg 3 must not be zero" [])).
Proof. destruct payload_; reflexivity. Qed.

(** X2. With a negative chunk size [send] raises nothing and transfers
    nothing: the select line is written and the payload is dropped. *)
Theorem send_negative_chunk_size (self : ST7789Display) (payload_ : payload)
    (is_data : bool) (chunk_size : Z) :
  chunk_size < 0 ->
  send self payload_ is_data chunk_size =
  ([GPIO_output (_dc self) is_data], inr tt).
Proof.
  intros Hc. unfold send, range.
  destruct (chunk_size =? 0) eqn:E; [lia|].
  rewrite range_loop_downwards by (assumption || apply len_nonneg).
  reflexivity.
Qed.

Lemma send_negative_chunk_size_witness :
  -1 < 0 /\
  send example_display (Bytes [1; 2; 3]) true (-1) =
  ([GPIO_output (_dc example_display) true], inr tt).
Proof. split; [lia | apply send_negative_chunk_size; lia]. Defined.

(** X3. A number is sent as one transfer of one byte, its value modulo 256
    (also when it is negative or above 255), whatever the positive chunk
    size. *)
Theorem send_number_masked (self : ST7789Display) (n : Z) (is_data : bool)
    (chunk_size : Z) :
  0 < chunk_size ->
  send self (Number n) is_data chunk_size =
    (sent self is_data [n mod 256], inr tt) /\
  0 <= n mod 256 < 256.
Proof.
  intros Hc. split; [|apply Z.mod_pos_bound; lia].
  change (send self (Number n) is_data chunk_size)
    with (send self (Bytes [Z.land n 0xFF]) is_data chunk_size).
  rewrite send_bytes by assumption. rewrite land_0xFF.
  change (len [n mod 256]) with 1.
  assert (range_loop (Z.to_nat 1) 0 1 chunk_size = [0]) as ->.
  { change (Z.to_nat 1) with 1%nat. simpl.
    destruct (0 <? chunk_size) eqn:E; [reflexivity | lia]. }
  cbn [map]. rewrite slice_inside by lia.
  change (len [n mod 256]) with 1.
  rewrite Z.min_r, Z.min_l by lia. reflexivity.
Qed.

Lemma send_number_masked_witness :
  0 < 1 /\
  send example_display (Number (-1)) false 1 =
    (sent example_display false [255], inr tt).
Proof.
  split; [lia|].
  exact (proj1 (@send_number_masked example_display (-1) false 1
                  ltac:(lia))).
Defined.

(** ** The initialisation sequence *)

Ltac byte_bound :=
  first [ rewrite land_0xFF; apply Z.mod_pos_bound; lia | lia ].

Ltac one_byte_each :=
  repeat (constructor; [eexists; split; [reflexivity | byte_bound]|]);
  try constructor.

(** X4. The initialisation sequence raises nothing; it makes 61 SPI
    transfers of one byte each (17 commands and their parameters), and waits
    exactly twice: 150 ms right after the software reset command and 100 ms
    at the very end, after the display-on command. *)
Theorem init_sequence_shape (ST7789 : ST7789_opcodes) (self : ST7789Display) :
  outcome (_init ST7789 self) = inr tt /\
  length (xfers (trace (_init ST7789 self))) = 61%nat /\
  Forall one_byte (xfers (trace (_init ST7789 self))) /\
  sleeps (trace (_init ST7789 self)) = [150; 100] /\
  exists middle,
    trace (_init ST7789 self) =
    sent self false [Z.land (SWRESET ST7789) 0xFF] ++ time_sleep 150 ::
    middle ++ sent self false [Z.land (DISPON ST7789) 0xFF] ++ [time_sleep 100].
Proof.
  unfold _init, command, data. rewrite !send_number.
  destruct (_invert self); cbn [bind emit sent app fst snd outcome trace xfers sleeps length].
  - split; [reflexivity|]. split; [reflexivity|]. split; [one_byte_each|].
    split; [reflexivity|].
    match goal with |- exists m, ?t = _ => exists (firstn 118 (skipn 3 t)) end.
    reflexivity.
  - split; [reflexivity|]. split; [reflexivity|]. split; [one_byte_each|].
    split; [reflexivity|].
    match goal with |- exists m, ?t = _ => exists (firstn 118 (skipn 3 t)) end.
    reflexivity.
Qed.

(** X5. The initialisation traffic depends on the controller only through
    its data/command pin and its inversion flag: width, height, rotation,
    offsets and the other pins play no part (the orientation byte sent with
    MADCTL is the same for every rotation). *)
Theorem init_ignores_geometry (ST7789 : ST7789_opcodes)
    (self self' : ST7789Display) :
  _dc self = _dc self' -> _invert self = _invert self' ->
  _init ST7789 self = _init ST7789 self'.
Proof.
  intros Hdc Hinv. unfold _init, command, data. rewrite !send_number.
  unfold sent. rewrite Hdc, Hinv. reflexivity.
Qed.

Lemma init_ignores_geometry_witness :
  _dc example_display = _dc example_display_upright /\
  _invert example_display = _invert example_display_upright /\
  _init ST7789_datasheet example_display =
  _init ST7789_datasheet example_display_upright.
Proof.
  split; [reflexivity|]. split; [reflexivity|].
  apply init_ignores_geometry; reflexivity.
Defined.

(** ** The write window at its edges *)

(** X6. [set_window] raises nothing whatever the coordinates and offsets
    (negative ones included) and always makes exactly eleven transfers of one
    byte each; the traffic only depends on the adjusted coordinates modulo
    65536. *)
Theorem set_window_total (ST7789 : ST7789_opcodes) (self : ST7789Display)
    (x0 y0 : Z) (x1 y1 : option Z) :
  outcome (set_window ST7789 self x0 y0 x1 y1) = inr tt /\
  length (xfers (trace (set_window ST7789 self x0 y0 x1 y1))) = 11%nat /\
  Forall one_byte (xfers (trace (set_window ST7789 self x0 y0 x1 y1))) /\
  forall x0' y0' x1' y1',
    (x0' + _offset_left self) mod 65536 = (x0 + _offset_left self) mod 65536 ->
    (y0' + _offset_top self) mod 65536 = (y0 + _offset_top self) mod 65536 ->
    (x1' + _offset_left self) mod 65536 =
      (or_default x1 (_width self - 1) + _offset_left self) mod 65536 ->
    (y1' + _offset_top self) mod 65536 =
      (or_default y1 (_height self - 1) + _offset_top self) mod 65536 ->
    set_window ST7789 self x0' y0' (Some x1') (Some y1') =
    set_window ST7789 self x0 y0 x1 y1.
Proof.
  assert (forall v, 0 <= (v mod 65536) / 256 < 256) as Hhi.
  { intros v. pose proof (Z.mod_pos_bound v 65536 ltac:(lia)).
    split; [apply Z.div_pos; lia | apply Z.div_lt_upper_bound; lia]. }
  assert (forall v, 0 <= (v mod 65536) mod 256 < 256) as Hlo.
  { intros v. apply Z.mod_pos_bound. lia. }
  split; [|split; [|split]].
  - unfold set_window, command, data. rewrite !send_number.
    destruct x1, y1; reflexivity.
  - rewrite set_window_wire. reflexivity.
  - rewrite set_window_wire. unfold trace, sent_be16, be16, sent.
    cbn [fst flat_map app xfers].
    repeat (constructor;
            [eexists; split;
             [reflexivity | first [apply Hhi | apply Hlo | byte_bound]]|]).
    constructor.
  - intros x0' y0' x1' y1' Hx0 Hy0 Hx1 Hy1. rewrite !set_window_wire.
    unfold sent_be16, be16. cbn [or_default]. now rewrite Hx0, Hy0, Hx1, Hy1.
Qed.

Lemma set_window_total_witness :
  set_window ST7789_datasheet example_display 65536 (-65536)
    (Some (239 + 65536)) (Some 239) =
  set_window ST7789_datasheet example_display 0 0 None None.
Proof.
  apply (proj2 (proj2 (proj2 (@set_window_total ST7789_datasheet
                                example_display 0 0 None None))));
    reflexivity.
Defined.

(** ** Construction in detail *)

Section ConstructionTrace.

Variable ST7789 : ST7789_opcodes.
Variables port dc spi_mode : Z.
Variables cs backlight rst : option Z.
Variable invert : bool.
Variables spi_speed_hz offset_left offset_top : Z.

#[local] Abbreviation new w h r :=
  (__init__ ST7789 port dc spi_mode cs backlight rst w h r invert
     spi_speed_hz offset_left offset_top).

#[local] Abbreviation configured w h r :=
  {| _spi := {| spi_port := port; spi_cs := cs; mode := spi_mode;
                lsbfirst := false; max_speed_hz := spi_speed_hz |};
     _dc := dc; _rst := rst; _width := w; _height := h; _rotation := r;
     _invert := invert; _offset_left := offset_left;
     _offset_top := offset_top; _backlight := backlight |}.

(** X7. A construction that passes the check does, in this order: the GPIO
    mode, the SPI device and its three settings, the data/command pin as
    output; when a backlight pin is given, that pin as output, low, 100 ms,
    high; when a reset pin is given, that pin as output and the reset pulse;
    then the initialisation sequence.  It returns the controller holding the
    arguments. *)
Theorem init_trace (w h r : Z) :
  valid_rotation r -> (quarter_turned r -> w = h) ->
  new w h r =
  ([GPIO_setwarnings false; GPIO_setmode_BCM; SpiDev_open port cs;
    SpiDev_mode spi_mode; SpiDev_lsbfirst false;
    SpiDev_max_speed_hz spi_speed_hz; GPIO_setup_OUT dc] ++
   match backlight with
   | Some pin => [GPIO_setup_OUT pin; GPIO_output pin false; time_sleep 100;
                  GPIO_output pin true]
   | None => []
   end ++
   match rst with
   | Some pin => [GPIO_setup_OUT pin; GPIO_output pin true; time_sleep 500;
                  GPIO_output pin false; time_sleep 500;
                  GPIO_output pin true; time_sleep 500]
   | None => []
   end ++
   trace (_init ST7789 (configured w h r)),
   inr (configured w h r)).
Proof.
  intros Hv Hsq. unfold __init__.
  apply valid_rotation_spec in Hv. rewrite Hv.
  assert (negb (w =? h) && existsb (Z.eqb r) [90; 270] = false) as ->.
  { destruct (existsb (Z.eqb r) [90; 270]) eqn:Eq; [|apply andb_false_r].
    apply quarter_turned_spec in Eq. rewrite (Hsq Eq), Z.eqb_refl.
    reflexivity. }
  cbn [negb]. cbv zeta.
  pose proof (_init_returns ST7789 (configured w h r)) as Hinit.
  destruct (_init ST7789 (configured w h r)) as [events returned].
  cbn [outcome snd] in Hinit. subst returned.
  unfold reset. cbn [_rst].
  destruct backlight, rst;
    cbn [bind ret emit app trace fst]; now rewrite app_nil_r.
Qed.

(** X8. The two configuration errors carry their own message and
    arguments, and the rotation is checked first: a rotation outside 0, 90,
    180, 270 is reported as such even on a panel that is not square. *)
Theorem init_error_messages (w h r : Z) :
  (~ valid_rotation r ->
   new w h r = ([], inl (ValueError "Invalid rotation {}" [r]))) /\
  (quarter_turned r -> w <> h ->
   new w h r =
   ([], inl (ValueError "Invalid rotation {} for {}x{} resolution" [r; w; h]))).
Proof.
  split.
  - intros Hn. unfold __init__.
    destruct (existsb (Z.eqb r) [0; 90; 180; 270]) eqn:Ev; [|reflexivity].
    now apply valid_rotation_spec in Ev.
  - intros Hq Hne. unfold __init__.
    assert (valid_rotation r) as Hv.
    { destruct Hq as [<- | [<- | []]]; unfold valid_rotation; simpl; tauto. }
    apply valid_rotation_spec in Hv. apply quarter_turned_spec in Hq.
    apply Z.eqb_neq in Hne. rewrite Hv, Hq, Hne. reflexivity.
Qed.

(** X9. On every controller that construction returns, the [width] and
    [height] accessors are the configured width and height themselves: the
    swap at rotations 90 and 270 is never visible, since construction only
    accepts these rotations on square panels. *)
Theorem accessors_are_configured (w h r : Z) (self : ST7789Display) :
  outcome (new w h r) = inr self -> width self = w /\ height self = h.
Proof.
  intros Hnew. apply init_outcome in Hnew. destruct Hnew as (-> & Hv & Hsq).
  unfold width, height. cbn [_rotation _width _height].
  destruct Hv as [<- | [<- | [<- | [<- | []]]]]; cbn [Z.eqb orb Pos.eqb];
    try (split; reflexivity);
    (rewrite Hsq by (unfold quarter_turned; simpl; tauto); split; reflexivity).
Qed.

End ConstructionTrace.

Lemma init_trace_witness :
  valid_rotation 0 /\
  __init__ ST7789_datasheet 0 9 3 (Some 1) None (Some 5)
    240 320 0 true 8000000 40 53 =
  ([GPIO_setwarnings false; GPIO_setmode_BCM; SpiDev_open 0 (Some 1);
    SpiDev_mode 3; SpiDev_lsbfirst false; SpiDev_max_speed_hz 8000000;
    GPIO_setup_OUT 9;
    GPIO_setup_OUT 5; GPIO_output 5 true; time_sleep 500;
    GPIO_output 5 false; time_sleep 500; GPIO_output 5 true; time_sleep 500] ++
   trace (_init ST7789_datasheet example_display_upright),
   inr example_display_upright).
Proof.
  assert (valid_rotation 0) as Hv by (unfold valid_rotation; simpl; tauto).
  split; [exact Hv|].
  rewrite (@init_trace ST7789_datasheet 0 9 3 (Some 1) None (Some 5) true
             8000000 40 53 240 320 0 Hv);
    [reflexivity | intros [H | [H | []]]; discriminate H].
Defined.

Lemma init_error_messages_witness :
  ~ valid_rotation 45 /\ quarter_turned 90 /\ 240 <> 320 /\
  __init__ ST7789_datasheet 0 9 0 None None None 240 320 45 true 4000000 0 0 =
  ([], inl (ValueError "Invalid rotation {}" [45])) /\
  __init__ ST7789_datasheet 0 9 0 None None None 240 320 90 true 4000000 0 0 =
  ([], inl (ValueError "Invalid rotation {} for {}x{} resolution"
              [90; 240; 320])).
Proof.
  assert (~ valid_rotation 45) as Hn.
  { unfold valid_rotation. simpl. intros [H | [H | [H | [H | []]]]];
      discriminate H. }
  assert (quarter_turned 90) as Hq by (unfold quarter_turned; simpl; tauto).
  assert (240 <> 320) as Hne by discriminate.
  split; [exact Hn|]. split; [exact Hq|]. split; [exact Hne|]. split.
  - exact (proj1 (@init_error_messages ST7789_datasheet 0 9 0 None None None
                    true 4000000 0 0 240 320 45) Hn).
  - exact (proj2 (@init_error_messages ST7789_datasheet 0 9 0 None None None
                    true 4000000 0 0 240 320 90) Hq Hne).
Defined.

Lemma accessors_are_configured_witness :
  exists self,
    outcome (__init__ ST7789_datasheet 0 9 0 (Some 0) (Some 19) None
               240 240 270 true 4000000 0 0) = inr self /\
    width self = 240 /\ height self = 240.
Proof.
  eexists. split; [lazy; reflexivity|].
  refine (@accessors_are_configured ST7789_datasheet 0 9 0 (Some 0) (Some 19)
            None true 4000000 0 0 240 240 270 _ _).
  lazy; reflexivity.
Defined.

(** ** The encoder at its edges *)

(** An image with fewer than three channels stops the encoder at the first
    channel it lacks. *)
Lemma image_to_data_too_few_channels (image : ndarray) (rotation : Z) :
  (dim2 image < 3)%nat ->
  image_to_data image rotation =
  inl (IndexError "index {} is out of bounds for axis {} with size {}"
         [Z.of_nat (dim2 image); 2; Z.of_nat (dim2 image)]).
Proof.
  intros Hlt. unfold image_to_data, image_to_rgb565, take_channel. cbn zeta.
  pose proof (proj1 (rot90_shape image (rotation / 90))) as H2.
  cbn [astype_uint16 map_items dim2]. rewrite H2.
  destruct (dim2 image) as [|[|[|n]]]; [reflexivity.. | lia].
Qed.

(** X10. The encoder returns bytes exactly for images with three channels
    or more; with fewer it raises [IndexError] for the first missing channel
    (the index equals the number of channels), whatever the rotation. *)
Theorem image_to_data_channels (image : ndarray) (rotation : Z) :
  ((3 <= dim2 image)%nat ->
   exists bytes, image_to_data image rotation = inr bytes) /\
  ((dim2 image < 3)%nat ->
   image_to_data image rotation =
   inl (IndexError "index {} is out of bounds for axis {} with size {}"
          [Z.of_nat (dim2 image); 2; Z.of_nat (dim2 image)])).
Proof.
  split.
  - intros H3. destruct (len_image_to_data image rotation H3) as (bytes & H & _).
    now exists bytes.
  - apply image_to_data_too_few_channels.
Qed.

Lemma image_to_data_channels_witness :
  (dim2 example_grey < 3)%nat /\
  image_to_data example_grey 90 =
  inl (IndexError "index {} is out of bounds for axis {} with size {}"
         [1; 2; 1]).
Proof.
  split; [simpl; lia|].
  apply (proj2 (image_to_data_channels example_grey 90)). simpl. lia.
Defined.

(** X11. [display] of an image with fewer than three channels raises the
    encoder's [IndexError] only after the full window was opened (CASET,
    RASET and RAMWR are already on the wire); no pixel data follows. *)
Theorem display_too_few_channels (ST7789 : ST7789_opcodes)
    (self : ST7789Display) (image : ndarray) :
  (dim2 image < 3)%nat ->
  display ST7789 self image =
  (trace (set_window ST7789 self 0 0 None None),
   inl (IndexError "index {} is out of bounds for axis {} with size {}"
          [Z.of_nat (dim2 image); 2; Z.of_nat (dim2 image)])).
Proof.
  intros Hlt. unfold display.
  rewrite (image_to_data_too_few_channels image (_rotation self) Hlt).
  rewrite set_window_wire, bind_returned. unfold lift, trace.
  rewrite bind_raised. cbn [fst snd]. now rewrite app_nil_r.
Qed.

Lemma display_too_few_channels_witness :
  (dim2 example_grey < 3)%nat /\
  display ST7789_datasheet example_display example_grey =
  (trace (set_window ST7789_datasheet example_display 0 0 None None),
   inl (IndexError "index {} is out of bounds for axis {} with size {}"
          [1; 2; 1])).
Proof.
  split; [simpl; lia|].
  apply (@display_too_few_channels ST7789_datasheet example_display
           example_grey). simpl. lia.
Defined.

Lemma rot90_same_rgb (a b : ndarray) (k : Z) :
  same_rgb a b -> same_rgb (rot90 a k) (rot90 b k).
Proof.
  intros (H0 & H1 & Ha & Hb & Hitem). unfold rot90.
  destruct (k mod 4 =? 0); [now repeat split|].
  destruct (k mod 4 =? 2); [|destruct (k mod 4 =? 1)];
    (repeat split; cbn; try assumption; intros i j c Hi Hj Hc;
     rewrite <- ?H0, <- ?H1; apply Hitem; lia).
Qed.

Lemma image_to_data_same_rgb (a b : ndarray) :
  same_rgb a b -> image_to_data a 0 = image_to_data b 0.
Proof.
  intros (H0 & H1 & Ha & Hb & Hitem).
  unfold image_to_data, image_to_rgb565, take_channel.
  change (rot90 a (0 / 90)) with a. change (rot90 b (0 / 90)) with b.
  cbn [astype_uint16 map_items dim2].
  destruct (Nat.ltb_spec 0 (dim2 a)); [|lia].
  destruct (Nat.ltb_spec 1 (dim2 a)); [|lia].
  destruct (Nat.ltb_spec 2 (dim2 a)); [|lia].
  destruct (Nat.ltb_spec 0 (dim2 b)); [|lia].
  destruct (Nat.ltb_spec 1 (dim2 b)); [|lia].
  destruct (Nat.ltb_spec 2 (dim2 b)); [|lia].
  f_equal. apply tobytes_same. repeat split; try assumption.
  cbn. intros i j c Hi Hj _. now rewrite !Hitem by lia.
Qed.

(** X12. The encoder reads the first three channels only: two images of
    the same height and width that agree on channels 0, 1 and 2 (an RGBA
    array and its RGB part, say) give the same bytes at every rotation. *)
Theorem image_to_data_ignores_alpha (a b : ndarray) (rotation : Z) :
  same_rgb a b -> image_to_data a rotation = image_to_data b rotation.
Proof.
  intros Hab. rewrite (image_to_data_rot90 a), (image_to_data_rot90 b).
  apply image_to_data_same_rgb. now apply rot90_same_rgb.
Qed.

Lemma example_image_rgba_same_rgb : same_rgb example_image_rgba example_image.
Proof.
  repeat split; try (simpl; lia).
  intros i j c _ _ Hc. destruct c as [|[|[|c]]]; [reflexivity.. | lia].
Qed.

Lemma image_to_data_ignores_alpha_witness :
  same_rgb example_image_rgba example_image /\
  image_to_data example_image_rgba 270 = image_to_data example_image 270.
Proof.
  split; [exact example_image_rgba_same_rgb|].
  apply image_to_data_ignores_alpha. exact example_image_rgba_same_rgb.
Defined.

Lemma rot90_mod (m : ndarray) (k : Z) : rot90 m (k mod 4) = rot90 m k.
Proof. unfold rot90. now rewrite Z.mod_mod by lia. Qed.

(** X13. The encoder rounds the rotation down to a multiple of 90 and
    takes it modulo 360: rotation 45 encodes as 0, 450 as 90 and -90 as
    270. *)
Theorem image_to_data_rotation_normalised (image : ndarray) (rotation : Z) :
  image_to_data image rotation =
    image_to_data image (90 * ((rotation / 90) mod 4)) /\
  In (90 * ((rotation / 90) mod 4)) [0; 90; 180; 270] /\
  image_to_data image 45 = image_to_data image 0 /\
  image_to_data image 450 = image_to_data image 90 /\
  image_to_data image (-90) = image_to_data image 270.
Proof.
  assert (forall r, image_to_data image r =
                    image_to_data image (90 * ((r / 90) mod 4))) as Hnorm.
  { intros r.
    rewrite (image_to_data_rot90 image r),
            (image_to_data_rot90 image (90 * _)).
    rewrite (Z.mul_comm 90), Z.div_mul by lia. now rewrite rot90_mod. }
  split; [apply Hnorm|]. split.
  - pose proof (Z.mod_pos_bound (rotation / 90) 4 ltac:(lia)) as Hm.
    assert ((rotation / 90) mod 4 = 0 \/ (rotation / 90) mod 4 = 1 \/
            (rotation / 90) mod 4 = 2 \/ (rotation / 90) mod 4 = 3)
      as [-> | [-> | [-> | ->]]] by lia; simpl; tauto.
  - split; [|split].
    + now rewrite (Hnorm 45).
    + now rewrite (Hnorm 450).
    + now rewrite (Hnorm (-90)).
Qed.

(** ** The packing of a pixel *)

(** A property of every byte value holds when it holds on the 256 of them. *)
Lemma byte_forall (P : Z -> bool) :
  forallb P (map Z.of_nat (seq 0 256)) = true ->
  forall x, 0 <= x < 256 -> P x = true.
Proof.
  intros Hall x Hx. rewrite forallb_forall in Hall. apply Hall.
  apply in_map_iff. exists (Z.to_nat x). split; [lia|]. apply in_seq. lia.
Qed.

Ltac by_bytes x :=
  let H := fresh "H" in
  let v := fresh "v" in
  assert (0 <= x < 256) as H by (apply Z.mod_pos_bound; lia);
  revert H; generalize x; intros v H; apply Z.eqb_eq; revert v H;
  apply byte_forall; vm_compute; reflexivity.

Lemma land_low_byte (v mask : Z) :
  0 <= mask < 256 -> Z.land v mask = Z.land (v mod 256) mask.
Proof.
  intros Hm. rewrite <- land_0xFF, <- Z.land_assoc. f_equal.
  rewrite Z.land_comm, land_0xFF. symmetry. now apply Z.mod_small.
Qed.

(** Only the low byte of a channel reaches the packed value. *)
Lemma rgb565_low_byte (R G B : Z) :
  rgb565 R G B = rgb565 (R mod 256) (G mod 256) (B mod 256).
Proof.
  unfold rgb565.
  now rewrite (@land_low_byte R 0xF8), (@land_low_byte G 0xFC),
    (@land_low_byte B 0xF8) by lia.
Qed.

(** The cast to [uint16] and the shifts lose nothing, whatever the integers
    in the channels. *)
Lemma packed_any (r g b : Z) : packed r g b = rgb565 r g b.
Proof.
  unfold packed.
  assert (forall v mask, 0 <= mask < 256 ->
            Z.land (v mod 65536) mask = Z.land v mask) as Hcast.
  { intros v mask Hm. rewrite (@land_low_byte (v mod 65536)) by assumption.
    rewrite (@land_low_byte v mask) by assumption. f_equal.
    change 65536 with (256 * 256).
    rewrite Z.rem_mul_r, (Z.mul_comm 256), Z.mod_add by lia.
    apply Z.mod_mod. lia. }
  rewrite !Hcast by lia. unfold rgb565.
  pose proof (@land_byte_mask r 0xF8 ltac:(lia)).
  pose proof (@land_byte_mask g 0xFC ltac:(lia)).
  rewrite !Z.shiftl_mul_pow2 by lia.
  rewrite !Z.mod_small; [reflexivity | |];
    (change (2 ^ 3) with 8 || change (2 ^ 8) with 256); lia.
Qed.

(** Unpacking a packed pixel gives back each channel with its low bits
    cleared. *)
Lemma unpack565_rgb565 (R G B : Z) :
  unpack565 (rgb565 R G B) = (Z.land R 0xF8, Z.land G 0xFC, Z.land B 0xF8).
Proof.
  rewrite rgb565_low_byte.
  rewrite (@land_low_byte R 0xF8), (@land_low_byte G 0xFC),
    (@land_low_byte B 0xF8) by lia.
  unfold unpack565, rgb565.
  rewrite !Z.shiftr_lor, !Z.shiftl_lor, !Z.land_lor_distr_l.
  f_equal; [f_equal|].
  - replace (Z.land (Z.shiftr (Z.shiftl (Z.land (G mod 256) 252) 3) 8) 248)
      with 0 by (symmetry; by_bytes (G mod 256)).
    replace (Z.land (Z.shiftr (Z.shiftr (Z.land (B mod 256) 248) 3) 8) 248)
      with 0 by (symmetry; by_bytes (B mod 256)).
    rewrite !Z.lor_0_r. by_bytes (R mod 256).
  - replace (Z.land (Z.shiftr (Z.shiftl (Z.land (R mod 256) 248) 8) 3) 252)
      with 0 by (symmetry; by_bytes (R mod 256)).
    replace (Z.land (Z.shiftr (Z.shiftr (Z.land (B mod 256) 248) 3) 3) 252)
      with 0 by (symmetry; by_bytes (B mod 256)).
    rewrite Z.lor_0_l, Z.lor_0_r. by_bytes (G mod 256).
  - replace (Z.land (Z.shiftl (Z.shiftl (Z.land (R mod 256) 248) 8) 3) 248)
      with 0 by (symmetry; by_bytes (R mod 256)).
    replace (Z.land (Z.shiftl (Z.shiftl (Z.land (G mod 256) 252) 3) 3) 248)
      with 0 by (symmetry; by_bytes (G mod 256)).
    rewrite !Z.lor_0_l. by_bytes (B mod 256).
Qed.

(** X14. The packing formula needs no 8-bit precondition: for every image
    with three channels or more and whatever integers its channels hold, the
    value before the byte swap is [(R & 0xF8) << 8 | (G & 0xFC) << 3 |
    (B & 0xF8) >> 3], and it only depends on the low byte of each channel. *)
Theorem rgb565_any_integers (image : ndarray) (rotation : Z) (i j : nat) :
  (3 <= dim2 image)%nat ->
  let pb := rot90 image (rotation / 90) in
  let R := item pb i j 0 in
  let G := item pb i j 1 in
  let B := item pb i j 2 in
  exists result,
    image_to_rgb565 image rotation = inr result /\
    item result i j 0 =
      Z.lor (Z.lor (Z.shiftl (Z.land R 0xF8) 8) (Z.shiftl (Z.land G 0xFC) 3))
            (Z.shiftr (Z.land B 0xF8) 3) /\
    item result i j 0 = rgb565 (R mod 256) (G mod 256) (B mod 256).
Proof.
  intros H3 pb R G B.
  destruct (image_to_rgb565_returns image rotation H3) as (result & Hres).
  exists result. split; [assumption|].
  destruct (image_to_rgb565_inv _ _ Hres) as (_ & _ & _ & _ & Hitem).
  rewrite Hitem. fold pb R G B. rewrite packed_any.
  split; [reflexivity | apply rgb565_low_byte].
Qed.

Lemma rgb565_any_integers_witness :
  (3 <= dim2 example_wide_pixel)%nat /\
  exists result,
    image_to_rgb565 example_wide_pixel 0 = inr result /\
    item result 0 0 0 = 0xFFFF.
Proof.
  split; [simpl; lia|].
  destruct (@rgb565_any_integers example_wide_pixel 0 0 0 ltac:(simpl; lia))
    as (result & Hres & Hv & _).
  exists result. split; [exact Hres | exact Hv].
Defined.

(** X15. Round trip: unpacking the value the encoder computes for a pixel
    gives back its three channels with the low bits cleared (3 of red, 2 of
    green, 3 of blue); so two pixels get the same value exactly when they
    agree on the kept bits. *)
Theorem rgb565_round_trip (image : ndarray) (rotation : Z) (i j i' j' : nat) :
  (3 <= dim2 image)%nat ->
  let pb := rot90 image (rotation / 90) in
  let kept i j :=
    (Z.land (item pb i j 0) 0xF8, Z.land (item pb i j 1) 0xFC,
     Z.land (item pb i j 2) 0xF8) in
  exists result,
    image_to_rgb565 image rotation = inr result /\
    unpack565 (item result i j 0) = kept i j /\
    (item result i j 0 = item result i' j' 0 <-> kept i j = kept i' j').
Proof.
  intros H3 pb kept.
  destruct (image_to_rgb565_returns image rotation H3) as (result & Hres).
  exists result. split; [assumption|].
  destruct (image_to_rgb565_inv _ _ Hres) as (_ & _ & _ & _ & Hitem).
  rewrite !Hitem. fold pb. rewrite !packed_any. subst kept. cbn beta.
  split; [apply unpack565_rgb565|]. split.
  - intros Heq. rewrite <- !unpack565_rgb565. now rewrite Heq.
  - intros [= Hr Hg Hb]. unfold rgb565. now rewrite Hr, Hg, Hb.
Qed.

Lemma rgb565_round_trip_witness :
  (3 <= dim2 example_image)%nat /\
  exists result,
    image_to_rgb565 example_image 0 = inr result /\
    unpack565 (item result 0 1 0) = (0, 0xFC, 0).
Proof.
  split; [simpl; lia|].
  destruct (@rgb565_round_trip example_image 0 0 1 0 0 ltac:(simpl; lia))
    as (result & Hres & Hv & _).
  exists result. split; [exact Hres | exact Hv].
Defined.

(** X16. Every byte the encoder returns is between 0 and 255, whatever
    integers the channels of the image hold. *)
Theorem image_to_data_byte_values (image : ndarray) (rotation : Z)
    (bytes : list Z) :
  image_to_data image rotation = inr bytes ->
  Forall (fun b => 0 <= b < 256) bytes.
Proof.
  intros Hdata.
  destruct (image_to_rgb565 image rotation) as [e | result] eqn:Hres.
  { unfold image_to_data in Hdata. rewrite Hres in Hdata. discriminate. }
  rewrite (image_to_data_rows _ _ Hres) in Hdata. injection Hdata as <-.
  destruct (image_to_rgb565_inv _ _ Hres) as (_ & _ & _ & _ & Hitem).
  apply Forall_forall. intros b Hb. unfold big_endian_rows in Hb.
  apply in_flat_map in Hb. destruct Hb as (i & _ & Hb).
  apply in_flat_map in Hb. destruct Hb as (j & _ & Hb).
  pose proof (packed_uint16 (item (rot90 image (rotation / 90)) i j 0)
                (item (rot90 image (rotation / 90)) i j 1)
                (item (rot90 image (rotation / 90)) i j 2)) as Hv.
  rewrite <- (Hitem i j 0%nat) in Hv.
  destruct Hb as [<- | [<- | []]].
  - split; [apply Z.div_pos; lia | apply Z.div_lt_upper_bound; lia].
  - apply Z.mod_pos_bound. lia.
Qed.

Lemma image_to_data_byte_values_witness :
  image_to_data example_wide_pixel 0 = inr [0xFF; 0xFF] /\
  Forall (fun b => 0 <= b < 256) [0xFF; 0xFF].
Proof.
  split; [reflexivity|].
  apply (@image_to_data_byte_values example_wide_pixel 0). reflexivity.
Defined.

(** ** [display] and [data] *)

Lemma xfers_app (t t' : list event) : xfers (t ++ t') = xfers t ++ xfers t'.
Proof.
  induction t as [|e t IH]; [reflexivity|].
  destruct e; simpl; now rewrite IH.
Qed.

Lemma xfers_sent_chunks (self : ST7789Display) (is_data : bool)
    (chunks : list (list Z)) :
  xfers (flat_map (sent self is_data) chunks) = chunks.
Proof.
  induction chunks as [|w ws IH]; [reflexivity|]. simpl. now rewrite IH.
Qed.

Lemma xfers_map_xfer (chunks : list (list Z)) :
  xfers (map SpiDev_xfer chunks) = chunks.
Proof.
  induction chunks as [|w ws IH]; [reflexivity|]. simpl. now rewrite IH.
Qed.

(** What [display] does once the encoder has returned. *)
Lemma display_chunks (ST7789 : ST7789_opcodes) (self : ST7789Display)
    (image : ndarray) (bytes : list Z) :
  image_to_data image (_rotation self) = inr bytes ->
  display ST7789 self image =
  (trace (set_window ST7789 self 0 0 None None) ++
   flat_map (sent self true)
     (map (fun s => slice bytes s (s + 4096))
        (range_loop (Z.to_nat (len bytes)) 0 (len bytes) 4096)),
   inr tt).
Proof.
  intros Hbytes.
  destruct (@windows_from Z bytes 4096 ltac:(lia) (Z.to_nat (len bytes)) 0
              ltac:(lia) ltac:(lia)) as (_ & _ & Hall).
  cbn zeta in Hall.
  set (starts := range_loop (Z.to_nat (len bytes)) 0 (len bytes) 4096) in *.
  assert (for_each starts
            (fun i => data self (Bytes (slice bytes i (i + 4096)))) =
          (flat_map (sent self true)
             (map (fun s => slice bytes s (s + 4096)) starts), inr tt))
    as Hloop.
  { rewrite (@for_each_returned _
               (fun i => sent self true (slice bytes i (i + 4096)))).
    - now rewrite flat_map_concat_map, map_map.
    - apply Forall_map in Hall. eapply Forall_impl; [|exact Hall].
      cbn beta. intros s Hs. now apply data_window. }
  unfold display. rewrite set_window_wire, bind_returned.
  unfold trace. cbn [fst snd]. rewrite Hbytes.
  unfold lift, range. change (4096 =? 0) with false. cbv iota.
  rewrite !bind_pure.
  rewrite Z.sub_0_r, Z.abs_eq by apply len_nonneg. fold starts.
  rewrite Hloop. reflexivity.
Qed.

(** X17. When the encoder returns, [display] raises nothing and makes the
    transfers of [set_window()] followed by exactly the transfers of one
    [data(pixel_bytes)] call: cutting the buffer in 4096-byte pieces before
    calling [data] changes no transfer ([send] would cut it the same way). *)
Theorem display_transfers (ST7789 : ST7789_opcodes) (self : ST7789Display)
    (image : ndarray) (bytes : list Z) :
  image_to_data image (_rotation self) = inr bytes ->
  outcome (display ST7789 self image) = inr tt /\
  xfers (trace (display ST7789 self image)) =
    xfers (trace (set_window ST7789 self 0 0 None None)) ++
    xfers (trace (data self (Bytes bytes))).
Proof.
  intros Hbytes. rewrite (display_chunks ST7789 self image Hbytes).
  split; [reflexivity|].
  unfold data. rewrite send_bytes by lia.
  unfold trace. cbn [fst]. rewrite xfers_app, xfers_sent_chunks.
  cbn [xfers]. now rewrite xfers_map_xfer.
Qed.

Lemma display_transfers_witness :
  xfers (trace (display ST7789_datasheet example_display example_image)) =
    xfers (trace (set_window ST7789_datasheet example_display 0 0 None None))
    ++ xfers (trace (data example_display (Bytes [0x07; 0xE0; 0xF8; 0x00]))).
Proof.
  apply (@display_transfers ST7789_datasheet example_display example_image).
  reflexivity.
Defined.

(** ** Half a turn *)

Lemma map_seq_mirror (A : Type) (g : nat -> A) (n : nat) :
  map (fun j => g (n - 1 - j)%nat) (seq 0 n) = rev (map g (seq 0 n)).
Proof.
  induction n as [|n IH]; [reflexivity|].
  rewrite seq_S at 2. rewrite map_app, rev_app_distr. cbn [map rev app].
  cbn [seq map]. f_equal; [f_equal; lia|].
  rewrite <- seq_shift, map_map, <- IH.
  apply map_ext. intros j. f_equal. lia.
Qed.

Lemma flat_map_seq_mirror (A : Type) (G : nat -> list A) (n : nat) :
  flat_map (fun i => rev (G (n - 1 - i)%nat)) (seq 0 n) =
  rev (flat_map G (seq 0 n)).
Proof.
  induction n as [|n IH]; [reflexivity|].
  rewrite seq_S at 2. rewrite flat_map_app, rev_app_distr.
  cbn [flat_map]. rewrite app_nil_r.
  cbn [seq flat_map]. f_equal; [f_equal; f_equal; lia|].
  rewrite <- seq_shift, <- IH, !flat_map_concat_map, map_map.
  f_equal. apply map_ext. intros i. do 2 f_equal. lia.
Qed.

Lemma big_endian_rows_pixels (result : ndarray) :
  big_endian_rows result = big_endian_pairs (pixels result).
Proof.
  unfold big_endian_rows, big_endian_pairs, pixels.
  induction (seq 0 (dim0 result)) as [|i rows IH]; [reflexivity|].
  cbn [flat_map]. rewrite flat_map_app, <- IH. f_equal.
  now rewrite !flat_map_concat_map, map_map.
Qed.

Lemma length_pixels (result : ndarray) :
  length (pixels result) = (dim0 result * dim1 result)%nat.
Proof.
  unfold pixels.
  assert (forall rows : list nat,
            length (flat_map (fun i => map (fun j => item result i j 0)
                                         (seq 0 (dim1 result))) rows) =
            (length rows * dim1 result)%nat) as Hrows.
  { induction rows as [|i rows IH]; [reflexivity|].
    cbn [flat_map length]. rewrite length_app, IH, length_map, length_seq.
    lia. }
  now rewrite Hrows, length_seq.
Qed.

(** X18. Encoding at rotation 180 sends the pixels of rotation 0 in the
    opposite order: the stream is the pixel values reversed, each still high
    byte first. *)
Theorem half_turn_reverses (image : ndarray) :
  (3 <= dim2 image)%nat ->
  exists values,
    image_to_data image 0 = inr (big_endian_pairs values) /\
    image_to_data image 180 = inr (big_endian_pairs (rev values)) /\
    length values = (dim0 image * dim1 image)%nat.
Proof.
  intros H3.
  destruct (image_to_rgb565_returns image 0 H3) as (r0 & Hr0).
  destruct (image_to_rgb565_returns image 180 H3) as (r180 & Hr180).
  destruct (image_to_rgb565_inv _ _ Hr0) as (_ & H00 & H01 & _ & Hitem0).
  destruct (image_to_rgb565_inv _ _ Hr180) as (_ & H10 & H11 & _ & Hitem1).
  change (rot90 image (0 / 90)) with image in *.
  change (rot90 image (180 / 90)) with (flip (flip image 0) 1) in *.
  cbn [flip dim0 dim1 item] in *.
  exists (pixels r0).
  rewrite (image_to_data_rows _ _ Hr0), (image_to_data_rows _ _ Hr180).
  rewrite !big_endian_rows_pixels.
  split; [reflexivity|]. split.
  - do 2 f_equal. unfold pixels. rewrite H00, H01, H10, H11.
    rewrite <- flat_map_seq_mirror. apply flat_map_agree. intros i _.
    rewrite <- map_seq_mirror. apply map_ext. intros j.
    now rewrite Hitem0, Hitem1.
  - now rewrite length_pixels, H00, H01.
Qed.

Lemma half_turn_reverses_witness :
  (3 <= dim2 example_image)%nat /\
  exists values,
    image_to_data example_image 0 = inr (big_endian_pairs values) /\
    image_to_data example_image 180 = inr (big_endian_pairs (rev values)) /\
    length values = (dim0 example_image * dim1 example_image)%nat.
Proof.
  split; [simpl; lia|]. apply half_turn_reverses. simpl. lia.
Defined.
